(** * Restaurant sales dashboard (app.py): filter engine and aggregation pipeline

    A shallow embedding of the dataframe computations of [app.py]:
    the sidebar filter, the KPI scalars, the groupby/agg/sort/head tables
    and the per-year daily revenue panels.  Rendering (plotly, streamlit
    layout) is not modelled; what is modelled is what is computed and
    which statement of the script raises.

    Conventions.
    - A DataFrame is a [list] of records, in row order.
    - [order_total] is the decimal amount written in the CSV, a rational.
      Where only the structure of a table matters (which rows, which
      keys, which order) the sums are written exactly ([sumQ]).  The
      numbers the script computes are binary64: [read_float64] is the
      value pandas reads and [sum_float64] its float sum, used where the
      bits of a sum matter.
    - [quantity] is an int64 column: its sums keep the low 64 bits
      ([wrap_int64]).
    - The frame is the one [load_data] returns: the derived calendar
      columns are fields of the row, and columns hold no missing value.
    - pandas' empty mean is [NaN]; [.iloc[0]] on an empty frame and
      [list[0]] on an empty list raise [IndexError]; a missing dict key
      raises [KeyError]. *)

From Stdlib Require Import List Bool ZArith QArith Lia String Ascii.
From Stdlib Require Import PrimFloat.
From Stdlib Require Import Permutation Sorted Morphisms Setoid.
From Stdlib Require OrderedTypeEx.
Import ListNotations.

Local Open Scope Z_scope.
Local Open Scope string_scope.

(** ** Exceptions of the script *)

Inductive Exn : Type :=
| IndexError
| KeyError.

Inductive Result (A : Type) : Type :=
| Ok (a : A)
| Raise (e : Exn).

Arguments Ok {A} a.
Arguments Raise {A} e.

Definition bind {A B : Type} (m : Result A) (k : A -> Result B) : Result B :=
  match m with
  | Ok a => k a
  | Raise e => Raise e
  end.

Notation "x <- m ;; k" := (bind m (fun x => k))
  (at level 61, m at next level, right associativity).

(** ** Column values used as grouping keys *)

Class Key (K : Type) : Type := {
  key_eqb : K -> K -> bool;
  key_leb : K -> K -> bool
}.

#[export] Instance Key_string : Key string := {
  key_eqb := String.eqb;
  key_leb := String.leb
}.

#[export] Instance Key_Z : Key Z := {
  key_eqb := Z.eqb;
  key_leb := Z.leb
}.

(* tuples of a multi-column groupby compare lexicographically *)
#[export] Instance Key_pair {K1 K2 : Type} `{Key K1} `{Key K2} : Key (K1 * K2) := {
  key_eqb p q := key_eqb (fst p) (fst q) && key_eqb (snd p) (snd q);
  key_leb p q := if key_eqb (fst p) (fst q) then key_leb (snd p) (snd q)
                 else key_leb (fst p) (fst q)
}.

(* the equality test of a key type decides equality *)
Class KeyOk (K : Type) `{Key K} : Prop := {
  key_eqb_eq : forall x y : K, key_eqb x y = true <-> x = y
}.

(** ** Series helpers *)

(* Series.isin(values) *)
Definition isin {K : Type} `{Key K} (x : K) (values : list K) : bool :=
  existsb (key_eqb x) values.

(* Series.unique(): distinct values in order of first appearance *)
Fixpoint unique {K : Type} `{Key K} (l : list K) : list K :=
  match l with
  | [] => []
  | x :: t => x :: filter (fun y => negb (key_eqb y x)) (unique t)
  end.

(* Series.nunique() *)
Definition nunique {K : Type} `{Key K} (l : list K) : Z :=
  Z.of_nat (List.length (unique l)).

Fixpoint insert_sorted {A : Type} (leb : A -> A -> bool) (x : A) (l : list A) : list A :=
  match l with
  | [] => [x]
  | y :: t => if leb x y then x :: y :: t else y :: insert_sorted leb x t
  end.

(* Python's sorted(): ascending, equal elements keep their order *)
Fixpoint sorted {A : Type} (leb : A -> A -> bool) (l : list A) : list A :=
  match l with
  | [] => []
  | x :: t => insert_sorted leb x (sorted leb t)
  end.

(* Series.sum(): 0 on an empty series *)
Fixpoint sumQ (l : list Q) : Q :=
  match l with
  | [] => 0%Q
  | x :: t => (x + sumQ t)%Q
  end.

Fixpoint sumZ (l : list Z) : Z :=
  match l with
  | [] => 0
  | x :: t => x + sumZ t
  end.

(* an int64 result: the low 64 bits, read in two's complement *)
Definition wrap_int64 (z : Z) : Z := (z + 2 ^ 63) mod 2 ^ 64 - 2 ^ 63.

(* Series.sum() of an int64 column *)
Definition sum_int64 (l : list Z) : Z := wrap_int64 (sumZ l).

(* the binary64 value of an integer (exact below 2^53) *)
Fixpoint f64_of_pos (p : positive) : float :=
  match p with
  | xH => 1%float
  | xO p' => (2 * f64_of_pos p')%float
  | xI p' => (2 * f64_of_pos p' + 1)%float
  end.

Definition f64_of_Z (z : Z) : float :=
  match z with
  | Z0 => 0%float
  | Zpos p => f64_of_pos p
  | Zneg p => (- f64_of_pos p)%float
  end.

(* the float64 read_csv stores for a decimal amount: the nearest binary64 *)
Definition read_float64 (q : Q) : float :=
  (f64_of_Z (Qnum q) / f64_of_pos (Qden q))%float.

(* Series.sum() of a float64 column, added up in row order *)
Definition sum_float64 (l : list float) : float :=
  fold_left PrimFloat.add l 0%float.

(* a float64 scalar as pandas hands it back: a number, or the NaN that
   stands for "no value" *)
Inductive Float : Type :=
| Num (x : float)
| NaN.

(* Series.mean() of a float64 column: NaN on an empty series, otherwise
   the float sum divided by the count *)
Definition mean (l : list Q) : Float :=
  match l with
  | [] => NaN
  | _ :: _ =>
      Num (sum_float64 (map read_float64 l) / f64_of_Z (Z.of_nat (List.length l)))%float
  end.

(* DataFrame.iloc[0] / list[0] *)
Definition iloc0 {A : Type} (l : list A) : Result A :=
  match l with
  | [] => Raise IndexError
  | x :: _ => Ok x
  end.

(* DataFrame.head(n) *)
Definition head_n {A : Type} (n : nat) (l : list A) : list A := firstn n l.

(** ** The loaded frame *)

Definition Date : Type := Z * (Z * Z).  (* year, month, day of month *)

Record Row : Type := {
  order_id : string;
  cust_id : string;
  category : string;
  item : string;
  quantity : Z;
  order_total : Q;
  day : Date;
  weekday : string;
  week : Z;
  month : Z;
  year : Z
}.

Definition DataFrame : Type := list Row.

(** ** Sidebar filter (filtered_df) *)

Definition filter_df (df : DataFrame) (selected_category selected_weekday : list string)
  : DataFrame :=
  filter (fun r => isin (category r) selected_category
                   && isin (weekday r) selected_weekday) df.

(* options of the two multiselect widgets *)
Definition category_options (df : DataFrame) : list string := unique (map category df).
Definition weekday_options (df : DataFrame) : list string := unique (map weekday df).

(** ** groupby / agg / sort_values *)

(* DataFrame.groupby(by): one group per distinct key, keys ascending,
   rows of a group in frame order *)
Definition group_keys {K A : Type} `{Key K} (by_ : A -> K) (df : list A) : list K :=
  sorted key_leb (unique (map by_ df)).

Definition group_of {K A : Type} `{Key K} (by_ : A -> K) (df : list A) (k : K) : list A :=
  filter (fun r => key_eqb (by_ r) k) df.

Definition groupby {K A : Type} `{Key K} (by_ : A -> K) (df : list A) : list (K * list A) :=
  map (fun k => (k, group_of by_ df k)) (group_keys by_ df).

(* .agg(name=(column, func)) with as_index=False: key column, measure column *)
Definition agg {K A B : Type} (f : list A -> B) (groups : list (K * list A)) : list (K * B) :=
  map (fun g => (fst g, f (snd g))) groups.

(* DataFrame.sort_values(by, ascending=False) with the default kind
   ("quicksort"): pandas documents the result as the rows reordered so
   that the column is descending, and documents that this kind is not
   stable.  Nothing else is known about it, so the script's sort is any
   function with this contract. *)
Class SortValues : Type := {
  sort_values_desc : forall {A : Type}, (A -> Q) -> list A -> list A;
  sort_values_perm : forall (A : Type) (by_ : A -> Q) (l : list A),
    Permutation (sort_values_desc by_ l) l;
  sort_values_sorted : forall (A : Type) (by_ : A -> Q) (l : list A),
    StronglySorted (fun x y => (by_ y <= by_ x)%Q) (sort_values_desc by_ l)
}.

Definition sum_order_total (g : list Row) : Q := sumQ (map order_total g).
Definition sum_quantity (g : list Row) : Z := sum_int64 (map quantity g).

(* the order totals of a group as the script adds them: in binary64 *)
Definition sum_order_total_f64 (g : list Row) : float :=
  sum_float64 (map (fun r => read_float64 (order_total r)) g).
Definition nunique_order_id (g : list Row) : Z := nunique (map order_id g).

(** ** KPI metrics *)

Record KPI : Type := {
  total_revenue : Q;
  total_items_sold : Z;
  avg_order_value : Float
}.

(* [total_revenue] is the sum of the amounts, written exactly; the
   binary64 number shown is [total_revenue_f64] *)
Definition kpi_metrics (filtered_df : DataFrame) : KPI :=
  {| total_revenue := sum_order_total filtered_df;
     total_items_sold := sum_quantity filtered_df;
     avg_order_value := mean (map order_total filtered_df) |}.

(** ** Customer analysis *)

Definition customer_revenue {S : SortValues} (filtered_df : DataFrame) : list (string * Q) :=
  head_n 10
    (sort_values_desc snd
       (agg sum_order_total (groupby cust_id filtered_df))).

Definition customer_loyalty {S : SortValues} (filtered_df : DataFrame) : list (string * Z) :=
  head_n 10
    (sort_values_desc (fun r => inject_Z (snd r))
       (agg nunique_order_id (groupby cust_id filtered_df))).

(** ** Category, item and weekday tables *)

Definition rev_cat (filtered_df : DataFrame) : list (string * Q) :=
  agg sum_order_total (groupby category filtered_df).

(* rev_cat and the Total Revenue metric with the numbers in binary64 *)
Definition rev_cat_f64 (filtered_df : DataFrame) : list (string * float) :=
  agg sum_order_total_f64 (groupby category filtered_df).

Definition total_revenue_f64 (filtered_df : DataFrame) : float :=
  sum_order_total_f64 filtered_df.

Definition vol_cat (filtered_df : DataFrame) : list (string * Z) :=
  agg sum_quantity (groupby category filtered_df).

Definition item_perf (filtered_df : DataFrame) : list ((string * string) * (Z * Q)) :=
  agg (fun g => (sum_quantity g, sum_order_total g))
      (groupby (fun r => (category r, item r)) filtered_df).

Definition weekday_order (filtered_df : DataFrame) : list (string * Z) :=
  agg nunique_order_id (groupby weekday filtered_df).

(** ** Daily revenue by year *)

Definition MONTH_MAP : list (Z * string) :=
  [ (1, "January"); (2, "February"); (3, "March"); (4, "April");
    (5, "May"); (6, "June"); (7, "July"); (8, "August");
    (9, "September"); (10, "October"); (11, "November"); (12, "December") ].

(* d[k] *)
Fixpoint dict_get {V : Type} (d : list (Z * V)) (k : Z) : Result V :=
  match d with
  | [] => Raise KeyError
  | (k', v) :: t => if (k' =? k)%Z then Ok v else dict_get t k
  end.

(* a list comprehension whose body may raise *)
Fixpoint map_result {A B : Type} (f : A -> Result B) (l : list A) : Result (list B) :=
  match l with
  | [] => Ok []
  | x :: t => y <- f x ;; ys <- map_result f t ;; Ok (y :: ys)
  end.

(* filtered_df[filtered_df["year"] == y] *)
Definition df_year (y : Z) (filtered_df : DataFrame) : DataFrame :=
  filter (fun r => (year r =? y)%Z) filtered_df.

(* sorted(df_y["month"].dropna().unique().tolist()) *)
Definition months_present (df_y : DataFrame) : list Z :=
  sorted Z.leb (unique (map month df_y)).

Definition month_options (df_y : DataFrame) : Result (list string) :=
  names <- map_result (dict_get MONTH_MAP) (months_present df_y) ;;
  Ok ("All Months" :: names).

(* [k for k, v in MONTH_MAP.items() if v == selected][0] *)
Definition month_num_of (selected : string) : Result Z :=
  iloc0 (map fst (filter (fun kv => String.eqb (snd kv) selected) MONTH_MAP)).

Definition plot_df (df_y : DataFrame) (selected_month : string) : Result DataFrame :=
  if String.eqb selected_month "All Months" then Ok df_y
  else month_num <- month_num_of selected_month ;;
       Ok (filter (fun r => (month r =? month_num)%Z) df_y).

Definition daily_rev (plot : DataFrame) : list (Date * Q) :=
  agg sum_order_total (groupby day plot).

Inductive Panel : Type :=
| Info (message : string)
| LineChart (table : list (Date * Q)).

(* DataFrame.empty *)
Definition empty {A : Type} (l : list A) : bool :=
  match l with
  | [] => true
  | _ :: _ => false
  end.

(* one column of the section; [selected_month] is what the selectbox
   built from [month_options] returned *)
Definition daily_revenue_panel (y : Z) (filtered_df : DataFrame) (selected_month : string)
  : Result Panel :=
  let df_y := df_year y filtered_df in
  _ <- month_options df_y ;;
  plot <- plot_df df_y selected_month ;;
  let daily := daily_rev plot in
  if empty daily then Ok (Info "No data available for this month.")
  else Ok (LineChart daily).

(** ** The script, top to bottom *)

Record Page : Type := {
  page_kpi : KPI;
  page_customer_revenue : list (string * Q);
  page_top_spender : string * Q;
  page_customer_loyalty : list (string * Z);
  page_most_loyal : string * Z;
  page_rev_cat : list (string * Q);
  page_vol_cat : list (string * Z);
  page_item_perf : list ((string * string) * (Z * Q));
  page_weekday_order : list (string * Z);
  page_daily_2022 : Panel;
  page_daily_2023 : Panel
}.

Definition dashboard {S : SortValues} (df : DataFrame)
    (selected_category selected_weekday : list string)
    (selected_month_2022 selected_month_2023 : string) : Result Page :=
  let filtered_df := filter_df df selected_category selected_weekday in
  let kpi := kpi_metrics filtered_df in
  let revenue := customer_revenue filtered_df in
  top_spender <- iloc0 revenue ;;
  let loyalty := customer_loyalty filtered_df in
  most_loyal <- iloc0 loyalty ;;
  let rc := rev_cat filtered_df in
  let vc := vol_cat filtered_df in
  let ip := item_perf filtered_df in
  let wo := weekday_order filtered_df in
  p2022 <- daily_revenue_panel 2022 filtered_df selected_month_2022 ;;
  p2023 <- daily_revenue_panel 2023 filtered_df selected_month_2023 ;;
  Ok {| page_kpi := kpi;
        page_customer_revenue := revenue;
        page_top_spender := top_spender;
        page_customer_loyalty := loyalty;
        page_most_loyal := most_loyal;
        page_rev_cat := rc;
        page_vol_cat := vc;
        page_item_perf := ip;
        page_weekday_order := wo;
        page_daily_2022 := p2022;
        page_daily_2023 := p2023 |}.

(** ** A sort that meets the [sort_values] contract *)

(* descending; rows with equal values keep their frame order *)
Definition sort_desc_stable {A : Type} (by_ : A -> Q) (l : list A) : list A :=
  sorted (fun x y => Qle_bool (by_ y) (by_ x)) l.

(* the rows of 2022 and 2023 *)
Definition rows_of_2022_2023 (filtered_df : DataFrame) : DataFrame :=
  filter (fun r => (year r =? 2022)%Z || (year r =? 2023)%Z) filtered_df.

(* the selected values that occur in the column *)
Definition present_in {K : Type} `{Key K} (column selected : list K) : list K :=
  filter (fun x => isin x column) selected.

(** ** Sample frames *)

Definition mk_row (oid cust cat : string) (qty : Z) (total : Q)
    (d : Date) (wd : string) : Row :=
  {| order_id := oid; cust_id := cust; category := cat; item := "item";
     quantity := qty; order_total := total; day := d; weekday := wd;
     week := 1; month := fst (snd d); year := fst d |}.

(* the three order lines of the worked example *)
Definition sample_df : DataFrame :=
  [ mk_row "o1" "A" "Drinks" 2 10 (2022, (1, 3)) "Monday";
    mk_row "o1" "A" "Food" 1 20 (2022, (1, 3)) "Monday";
    mk_row "o2" "B" "Drinks" 1 5 (2023, (2, 7)) "Tuesday" ].

(* three order lines of 0.1, 0.2 and 0.3 in two categories *)
Definition rounding_df : DataFrame :=
  [ mk_row "o1" "A" "Drinks" 1 (1 # 10) (2022, (1, 3)) "Monday";
    mk_row "o2" "B" "Food" 1 (2 # 10) (2022, (1, 4)) "Tuesday";
    mk_row "o3" "C" "Food" 1 (3 # 10) (2022, (1, 5)) "Wednesday" ].

(** ** Orders on keys *)

(* the order test of a key type is a total order *)
Class KeyOrdOk (K : Type) `{Key K} : Prop := {
  key_leb_total : forall x y : K, key_leb x y = true \/ key_leb y x = true;
  key_leb_trans : forall x y z : K,
    key_leb x y = true -> key_leb y z = true -> key_leb x z = true;
  key_leb_antisym : forall x y : K,
    key_leb x y = true -> key_leb y x = true -> x = y
}.

(* strictly before, in the order groupby sorts by *)
Definition key_lt {K : Type} `{Key K} (x y : K) : Prop :=
  key_leb x y = true /\ x <> y.

(* calendar order of (year, month, day) *)
Definition date_lt (d1 d2 : Date) : Prop :=
  (fst d1 < fst d2)%Z \/
  (fst d1 = fst d2 /\
   ((fst (snd d1) < fst (snd d2))%Z \/
    (fst (snd d1) = fst (snd d2) /\ (snd (snd d1) < snd (snd d2))%Z))).

(* the rows of a (category, item) table that belong to one category *)
Definition items_of_category {B : Type} (c : string)
    (table : list ((string * string) * B)) : list ((string * string) * B) :=
  filter (fun row => String.eqb (fst (fst row)) c) table.

(* the key of the (category, item) groupby *)
Definition category_item (r : Row) : string * string := (category r, item r).

(* the names MONTH_MAP maps to *)
Definition month_names : list string := map snd MONTH_MAP.

(** * Properties *)

(** ** Laws of the key comparison *)

#[export] Instance KeyOk_string : KeyOk string.
Proof. constructor. exact String.eqb_eq. Qed.

#[export] Instance KeyOk_Z : KeyOk Z.
Proof. constructor. exact Z.eqb_eq. Qed.

#[export] Instance KeyOk_pair {K1 K2 : Type} `{KeyOk K1} `{KeyOk K2} : KeyOk (K1 * K2).
Proof.
  constructor. intros [a b] [c d]. simpl.
  rewrite andb_true_iff, !key_eqb_eq. split.
  - intros [-> ->]. reflexivity.
  - intros E. inversion E. auto.
Qed.

Section KeyFacts.
Context {K : Type} `{KeyOk K}.

Lemma key_eqb_spec (x y : K) : reflect (x = y) (key_eqb x y).
Proof. apply iff_reflect. symmetry. apply key_eqb_eq. Qed.

Lemma key_eqb_refl (x : K) : key_eqb x x = true.
Proof. now apply key_eqb_eq. Qed.

Lemma isin_In (x : K) (values : list K) : isin x values = true <-> In x values.
Proof.
  unfold isin. rewrite existsb_exists. split.
  - intros (y & Hy & Hxy). apply key_eqb_eq in Hxy. now subst.
  - intros Hx. exists x. split; [assumption | apply key_eqb_refl].
Qed.

Lemma unique_In (x : K) (l : list K) : In x (unique l) <-> In x l.
Proof.
  induction l as [| a l IH]; simpl; [tauto |].
  rewrite filter_In, IH, negb_true_iff.
  destruct (key_eqb_spec x a) as [-> | Hne]; split; intros Hx; auto.
  - destruct Hx as [Hx | [Hx _]]; auto.
  - destruct Hx as [Hx | Hx]; [now left | right; split; auto].
Qed.

Lemma unique_NoDup (l : list K) : NoDup (unique l).
Proof.
  induction l as [| a l IH]; simpl; constructor.
  - rewrite filter_In, key_eqb_refl. intros [_ Habs]. discriminate.
  - now apply NoDup_filter.
Qed.

Lemma isin_perm (x : K) (l l' : list K) :
  Permutation l l' -> isin x l = isin x l'.
Proof.
  intros Hp. apply eq_true_iff_eq. rewrite !isin_In.
  split; apply Permutation_in; [assumption | now symmetry].
Qed.
End KeyFacts.

(** ** Facts about [sorted] *)

Section SortedFacts.
Context {A : Type} (leb : A -> A -> bool).

Lemma insert_sorted_perm (x : A) (l : list A) :
  Permutation (insert_sorted leb x l) (x :: l).
Proof.
  induction l as [| y t IH]; simpl; [reflexivity |].
  destruct (leb x y); [reflexivity |].
  rewrite IH. apply perm_swap.
Qed.

Lemma sorted_perm (l : list A) : Permutation (sorted leb l) l.
Proof.
  induction l as [| x t IH]; simpl; [reflexivity |].
  rewrite insert_sorted_perm. now constructor.
Qed.

Lemma sorted_In (x : A) (l : list A) : In x (sorted leb l) <-> In x l.
Proof.
  split; apply Permutation_in; [apply sorted_perm | symmetry; apply sorted_perm].
Qed.

Variable R : A -> A -> Prop.
Hypothesis R_trans : forall x y z, R x y -> R y z -> R x z.
Hypothesis leb_true : forall x y, leb x y = true -> R x y.
Hypothesis leb_false : forall x y, leb x y = false -> R y x.

Lemma insert_sorted_StronglySorted (x : A) (l : list A) :
  StronglySorted R l -> StronglySorted R (insert_sorted leb x l).
Proof.
  induction 1 as [| y t Hs IH Hall]; simpl.
  - repeat constructor.
  - destruct (leb x y) eqn:E.
    + constructor; [now constructor |].
      constructor; [now apply leb_true |].
      eapply Forall_impl; [| exact Hall].
      intros z Hz. eapply R_trans; [apply leb_true; exact E | exact Hz].
    + constructor; [exact IH |].
      eapply Permutation_Forall.
      * symmetry. apply insert_sorted_perm.
      * constructor; [now apply leb_false | exact Hall].
Qed.

Lemma sorted_StronglySorted (l : list A) : StronglySorted R (sorted leb l).
Proof.
  induction l as [| x t IH]; simpl; [constructor |].
  now apply insert_sorted_StronglySorted.
Qed.
End SortedFacts.

(** ** Filter engine *)

Lemma filter_length_bound {A : Type} (f : A -> bool) (l : list A) :
  (List.length (filter f l) <= List.length l)%nat.
Proof.
  induction l as [| a l IH]; simpl; [lia |].
  destruct (f a); simpl; lia.
Qed.

Lemma filter_length_full {A : Type} (f : A -> bool) (l : list A) :
  List.length (filter f l) = List.length l <-> (forall x, In x l -> f x = true).
Proof.
  induction l as [| a l IH]; simpl.
  - split; [intros _ x [] | reflexivity].
  - destruct (f a) eqn:E; simpl.
    + split.
      * intros Hlen x [<- | Hx]; [assumption |].
        apply IH; [lia | assumption].
      * intros Hall. f_equal. apply IH. auto.
    + split.
      * intros Hlen. pose proof (filter_length_bound f l). lia.
      * intros Hall. specialize (Hall a (or_introl eq_refl)). congruence.
Qed.

Lemma filter_df_In (df : DataFrame) (sc sw : list string) (r : Row) :
  In r (filter_df df sc sw) <-> In r df /\ In (category r) sc /\ In (weekday r) sw.
Proof.
  unfold filter_df. rewrite filter_In, andb_true_iff, !isin_In. tauto.
Qed.

Lemma category_options_In (df : DataFrame) (c : string) :
  In c (category_options df) <-> exists r, In r df /\ category r = c.
Proof.
  unfold category_options. rewrite unique_In, in_map_iff.
  split; intros (r & H1 & H2); exists r; tauto.
Qed.

Lemma weekday_options_In (df : DataFrame) (w : string) :
  In w (weekday_options df) <-> exists r, In r df /\ weekday r = w.
Proof.
  unfold weekday_options. rewrite unique_In, in_map_iff.
  split; intros (r & H1 & H2); exists r; tauto.
Qed.

(* every row passes exactly when the selections cover both columns *)
Lemma filter_df_full_iff (df : DataFrame) (sc sw : list string) :
  List.length (filter_df df sc sw) = List.length df <->
  (forall c, In c (category_options df) -> In c sc) /\
  (forall w, In w (weekday_options df) -> In w sw).
Proof.
  unfold filter_df. rewrite filter_length_full. split.
  - intros Hall. split.
    + intros c Hc. apply category_options_In in Hc as (r & Hr & <-).
      specialize (Hall r Hr). apply andb_true_iff in Hall as [Hc _].
      now apply isin_In.
    + intros w Hw. apply weekday_options_In in Hw as (r & Hr & <-).
      specialize (Hall r Hr). apply andb_true_iff in Hall as [_ Hw].
      now apply isin_In.
  - intros [Hc Hw] r Hr. apply andb_true_iff. rewrite !isin_In. split.
    + apply Hc, category_options_In. now exists r.
    + apply Hw, weekday_options_In. now exists r.
Qed.

Lemma filter_df_present (df : DataFrame) (sc sw : list string) :
  filter_df df (present_in (category_options df) sc)
               (present_in (weekday_options df) sw)
  = filter_df df sc sw.
Proof.
  unfold filter_df. apply filter_ext_in. intros r Hr. f_equal.
  - apply eq_true_iff_eq. unfold present_in.
    rewrite !isin_In, filter_In, isin_In, category_options_In.
    split; [tauto | intros Hc; split; [assumption | now exists r]].
  - apply eq_true_iff_eq. unfold present_in.
    rewrite !isin_In, filter_In, isin_In, weekday_options_In.
    split; [tauto | intros Hw; split; [assumption | now exists r]].
Qed.

Lemma present_in_In (column selected : list string) (x : string) :
  In x (present_in column selected) <-> In x selected /\ In x column.
Proof. unfold present_in. now rewrite filter_In, isin_In. Qed.

(** C4. The Filtered View never has more rows than the dataset.  For a
    Filter Selection (two sets of values drawn from the dataset's own
    categories and weekdays, as the multiselect widgets offer them) the
    row counts are equal if and only if both selections are the full
    domain.  Values of a selection that do not occur in the dataset change
    nothing: the view is the one obtained from the selections restricted
    to the values present (filtering is a total function, it cannot
    raise), and for arbitrary selections the counts are equal if and only
    if the values present in each selection are the full domain. *)
Theorem filtered_view_row_count (df : DataFrame) (sc sw : list string) :
  (List.length (filter_df df sc sw) <= List.length df)%nat /\
  ((forall c, In c sc -> In c (category_options df)) ->
   (forall w, In w sw -> In w (weekday_options df)) ->
   (List.length (filter_df df sc sw) = List.length df <->
    (forall c, In c sc <-> In c (category_options df)) /\
    (forall w, In w sw <-> In w (weekday_options df)))) /\
  filter_df df (present_in (category_options df) sc)
               (present_in (weekday_options df) sw)
  = filter_df df sc sw /\
  (List.length (filter_df df sc sw) = List.length df <->
   (forall c, In c (present_in (category_options df) sc) <-> In c (category_options df)) /\
   (forall w, In w (present_in (weekday_options df) sw) <-> In w (weekday_options df))).
Proof.
  split; [apply filter_length_bound |].
  split; [| split; [apply filter_df_present |]].
  - intros Hsc Hsw. rewrite filter_df_full_iff. split.
    + intros [Hc Hw]. split; intros x; split; auto.
    + intros [Hc Hw]. split; intros x Hx; [apply Hc | apply Hw]; assumption.
  - rewrite filter_df_full_iff. split.
    + intros [Hc Hw]. split; intros x; rewrite present_in_In; split; intuition.
    + intros [Hc Hw]. split; intros x Hx.
      * apply Hc in Hx. now apply present_in_In in Hx.
      * apply Hw in Hx. now apply present_in_In in Hx.
Qed.

Lemma filtered_view_row_count_witness :
  List.length (filter_df sample_df ["Drinks"; "Food"] ["Tuesday"; "Monday"])
  = List.length sample_df.
Proof.
  destruct (filtered_view_row_count sample_df ["Drinks"; "Food"] ["Tuesday"; "Monday"])
    as (_ & Hiff & _).
  apply Hiff.
  - intros c Hc. vm_compute. vm_compute in Hc. tauto.
  - intros w Hw. vm_compute. vm_compute in Hw. tauto.
  - split; intros x; vm_compute; tauto.
Defined.

(** C6. Filtering is idempotent (filtering the Filtered View again with
    the same selections returns it unchanged) and does not depend on the
    order in which the values of a selection are listed. *)
Theorem filter_idempotent_order_independent
    (df : DataFrame) (sc sw sc' sw' : list string) :
  filter_df (filter_df df sc sw) sc sw = filter_df df sc sw /\
  (Permutation sc sc' -> Permutation sw sw' ->
   filter_df df sc' sw' = filter_df df sc sw).
Proof.
  split.
  - unfold filter_df.
    induction df as [| r df IH]; simpl; [reflexivity |].
    destruct (isin (category r) sc && isin (weekday r) sw) eqn:E; simpl.
    + rewrite E. f_equal. exact IH.
    + exact IH.
  - intros Hc Hw. unfold filter_df. apply filter_ext. intros r.
    now rewrite (isin_perm _ _ _ Hc), (isin_perm _ _ _ Hw).
Qed.

Lemma filter_idempotent_order_independent_witness :
  filter_df sample_df ["Food"; "Drinks"] ["Tuesday"; "Monday"]
  = filter_df sample_df ["Drinks"; "Food"] ["Monday"; "Tuesday"].
Proof.
  apply (filter_idempotent_order_independent sample_df
           ["Drinks"; "Food"] ["Monday"; "Tuesday"]
           ["Food"; "Drinks"] ["Tuesday"; "Monday"]);
    apply perm_swap.
Defined.

(** ** groupby and agg *)

Section GroupFacts.
Context {K : Type} `{KeyOk K} {A : Type}.

Lemma group_keys_In (by_ : A -> K) (df : list A) (k : K) :
  In k (group_keys by_ df) <-> exists r, In r df /\ by_ r = k.
Proof.
  unfold group_keys. rewrite sorted_In, unique_In, in_map_iff.
  split; intros (r & H1 & H2); exists r; tauto.
Qed.

Lemma group_keys_NoDup (by_ : A -> K) (df : list A) : NoDup (group_keys by_ df).
Proof.
  unfold group_keys. eapply Permutation_NoDup.
  - symmetry. apply sorted_perm.
  - apply unique_NoDup.
Qed.

Lemma agg_groupby {B : Type} (f : list A -> B) (by_ : A -> K) (df : list A) :
  agg f (groupby by_ df)
  = map (fun k => (k, f (group_of by_ df k))) (group_keys by_ df).
Proof. unfold agg, groupby. now rewrite map_map. Qed.

Lemma agg_groupby_fst {B : Type} (f : list A -> B) (by_ : A -> K) (df : list A) :
  map fst (agg f (groupby by_ df)) = group_keys by_ df.
Proof. rewrite agg_groupby, map_map. simpl. apply map_id. Qed.

Lemma agg_groupby_snd {B : Type} (f : list A -> B) (by_ : A -> K) (df : list A) :
  map snd (agg f (groupby by_ df))
  = map (fun k => f (group_of by_ df k)) (group_keys by_ df).
Proof. rewrite agg_groupby, map_map. reflexivity. Qed.

Lemma agg_groupby_In {B : Type} (f : list A -> B) (by_ : A -> K) (df : list A)
    (k : K) (b : B) :
  In (k, b) (agg f (groupby by_ df)) <->
  (exists r, In r df /\ by_ r = k) /\ b = f (group_of by_ df k).
Proof.
  rewrite agg_groupby, in_map_iff. split.
  - intros (k' & E & Hk). inversion E; subst. split; [| reflexivity].
    now apply group_keys_In.
  - intros [Hk ->]. exists k. split; [reflexivity | now apply group_keys_In].
Qed.

Lemma agg_groupby_nil {B : Type} (f : list A -> B) (by_ : A -> K) :
  agg f (groupby by_ []) = [].
Proof. reflexivity. Qed.

Lemma agg_groupby_empty_iff {B : Type} (f : list A -> B) (by_ : A -> K) (df : list A) :
  agg f (groupby by_ df) = [] <-> df = [].
Proof.
  split; [| intros ->; reflexivity].
  destruct df as [| r df]; [reflexivity |]. intros E. exfalso.
  assert (Hin : In (by_ r) (group_keys by_ (r :: df))).
  { apply group_keys_In. exists r. split; [now left | reflexivity]. }
  rewrite <- (agg_groupby_fst f), E in Hin. exact Hin.
Qed.
End GroupFacts.

(** ** Sums over a partition *)

Local Open Scope Q_scope.

Lemma sumQ_map_ext {A : Type} (g h : A -> Q) (l : list A) :
  (forall x, In x l -> g x == h x) -> sumQ (map g l) == sumQ (map h l).
Proof.
  induction l as [| a l IH]; simpl; intros Hext; [reflexivity |].
  rewrite (Hext a (or_introl eq_refl)), IH; [reflexivity |].
  intros x Hx. apply Hext. now right.
Qed.

Lemma sumQ_map_plus {A : Type} (g h : A -> Q) (l : list A) :
  sumQ (map (fun x => g x + h x) l) == sumQ (map g l) + sumQ (map h l).
Proof.
  induction l as [| a l IH]; simpl; [reflexivity |].
  rewrite IH. ring.
Qed.

Lemma sumQ_map_zero {A : Type} (g : A -> Q) (l : list A) :
  (forall x, In x l -> g x == 0) -> sumQ (map g l) == 0.
Proof.
  induction l as [| a l IH]; simpl; intros Hz; [reflexivity |].
  rewrite (Hz a (or_introl eq_refl)), IH; [reflexivity |].
  intros x Hx. apply Hz. now right.
Qed.

(* a value counted under exactly one key of a duplicate-free key list *)
Lemma sumQ_indicator {K : Type} `{KeyOk K} (x : K) (v : Q) (ks : list K) :
  NoDup ks -> In x ks ->
  sumQ (map (fun k => if key_eqb x k then v else 0) ks) == v.
Proof.
  induction 1 as [| k ks Hnotin Hnd IH]; simpl; [intros [] |].
  intros [-> | Hx].
  - rewrite key_eqb_refl, sumQ_map_zero; [ring |].
    intros y Hy. destruct (key_eqb_spec x y) as [-> | _]; [contradiction | reflexivity].
  - destruct (key_eqb_spec x k) as [-> | _]; [contradiction |].
    rewrite IH by assumption. ring.
Qed.

Lemma sum_over_groups {K : Type} `{KeyOk K} {A : Type}
    (by_ : A -> K) (f : A -> Q) (ks : list K) (df : list A) :
  NoDup ks -> (forall r, In r df -> In (by_ r) ks) ->
  sumQ (map (fun k => sumQ (map f (group_of by_ df k))) ks) == sumQ (map f df).
Proof.
  intros Hnd. induction df as [| r df IH]; intros Hcover.
  - simpl. apply sumQ_map_zero. reflexivity.
  - transitivity
      (sumQ (map (fun k => (if key_eqb (by_ r) k then f r else 0)
                           + sumQ (map f (group_of by_ df k))) ks)).
    + apply sumQ_map_ext. intros k _. unfold group_of. simpl.
      destruct (key_eqb (by_ r) k); simpl; ring.
    + rewrite sumQ_map_plus, sumQ_indicator, IH.
      * reflexivity.
      * intros r' Hr'. apply Hcover. now right.
      * assumption.
      * apply Hcover. now left.
Qed.

(** C5 (as the script has it). Grouping by category partitions the
    Filtered View: no category is listed twice, every row falls under a
    listed category, and a category's measure adds the order totals of
    its rows (the float64 table lists the same categories).  So the
    per-category measures add up to the total revenue when the amounts
    are added exactly.  The float64 sums the script computes add the same
    amounts in different orders; nothing is said about their last bits. *)
Theorem revenue_by_category_conserves_total (filtered_df : DataFrame) :
  NoDup (map fst (rev_cat filtered_df)) /\
  (forall r, In r filtered_df -> In (category r) (map fst (rev_cat filtered_df))) /\
  (forall c s, In (c, s) (rev_cat filtered_df) ->
     s = sum_order_total (group_of category filtered_df c)) /\
  map fst (rev_cat_f64 filtered_df) = map fst (rev_cat filtered_df) /\
  sumQ (map snd (rev_cat filtered_df)) == total_revenue (kpi_metrics filtered_df).
Proof.
  unfold rev_cat, rev_cat_f64, kpi_metrics. simpl. rewrite !agg_groupby_fst.
  split; [apply group_keys_NoDup |].
  split; [intros r Hr; apply group_keys_In; now exists r |].
  split; [intros c s Hin; now apply agg_groupby_In in Hin as [_ ->] |].
  split; [reflexivity |].
  rewrite agg_groupby_snd.
  unfold sum_order_total. apply sum_over_groups.
  - apply group_keys_NoDup.
  - intros r Hr. apply group_keys_In. now exists r.
Qed.

Lemma revenue_by_category_conserves_total_witness :
  In "Food" (map fst (rev_cat rounding_df)).
Proof.
  destruct (revenue_by_category_conserves_total rounding_df) as (_ & Hcover & _).
  apply (Hcover (mk_row "o2" "B" "Food" 1 (2 # 10) (2022, (1, 4))%Z "Tuesday")).
  right. left. reflexivity.
Defined.

Local Set Warnings "-inexact-float".

(* on [rounding_df] the Total Revenue metric is (0.1 + 0.2) + 0.3 and the
   table holds Drinks 0.1 and Food 0.2 + 0.3 *)
Example rounding_df_sums :
  PrimFloat.eqb (total_revenue_f64 rounding_df) ((0.1 + 0.2) + 0.3)%float = true /\
  map snd (rev_cat_f64 rounding_df) = [ 0.1%float; (0.2 + 0.3)%float ] /\
  PrimFloat.ltb (sum_float64 (map snd (rev_cat_f64 rounding_df)))
                (total_revenue_f64 rounding_df) = true.
Proof. vm_compute. repeat split. Qed.

(** C5 (as stated) fails on the float64 sums: for the three order lines
    0.1 (Drinks), 0.2 and 0.3 (Food) the Total Revenue metric is
    (0.1 + 0.2) + 0.3 = 0.6000000000000001, while the per-category
    revenues 0.1 and 0.5 add up to 0.6. *)
Lemma revenue_by_category_float64_sums_differ :
  ~ (forall filtered_df : DataFrame,
       sum_float64 (map snd (rev_cat_f64 filtered_df))
       = total_revenue_f64 filtered_df).
Proof.
  intros Hall. specialize (Hall rounding_df).
  apply (f_equal (fun x => PrimFloat.eqb x (total_revenue_f64 rounding_df))) in Hall.
  vm_compute in Hall. discriminate.
Qed.

(** ** KPI metrics and the script on an empty view *)

Lemma filter_df_no_category (df : DataFrame) (sw : list string) :
  filter_df df [] sw = [].
Proof.
  unfold filter_df. induction df as [| r df IH]; simpl; [reflexivity | exact IH].
Qed.

Lemma filter_df_no_weekday (df : DataFrame) (sc : list string) :
  filter_df df sc [] = [].
Proof.
  unfold filter_df. induction df as [| r df IH]; simpl; [reflexivity |].
  rewrite andb_false_r. exact IH.
Qed.

(** C1. With no category selected the Filtered View is empty; total
    revenue and total items sold are 0 there, but the average order value
    is the mean of no rows, which the script leaves as pandas returns it:
    NaN. *)
Theorem kpi_of_empty_selection (df : DataFrame) (selected_weekday : list string) :
  kpi_metrics (filter_df df [] selected_weekday)
  = {| total_revenue := 0; total_items_sold := 0%Z; avg_order_value := NaN |}.
Proof. rewrite filter_df_no_category. reflexivity. Qed.

Section SortContract.
Context {S : SortValues}.

Lemma sort_values_nil {A : Type} (by_ : A -> Q) : sort_values_desc by_ [] = [].
Proof. apply Permutation_nil. symmetry. apply sort_values_perm. Qed.

Lemma sort_values_In {A : Type} (by_ : A -> Q) (l : list A) (x : A) :
  In x (sort_values_desc by_ l) <-> In x l.
Proof.
  split; apply Permutation_in;
    [apply sort_values_perm | symmetry; apply sort_values_perm].
Qed.

Lemma customer_revenue_nil : customer_revenue [] = [].
Proof.
  unfold customer_revenue. rewrite agg_groupby_nil, sort_values_nil. reflexivity.
Qed.

Lemma customer_loyalty_nil : customer_loyalty [] = [].
Proof.
  unfold customer_loyalty. rewrite agg_groupby_nil, sort_values_nil. reflexivity.
Qed.

(** C2. With no category selected the script does not reach the end:
    the Top Spenders table is empty and reading its first row
    ([customer_revenue.iloc[0]]) raises IndexError, whatever the other
    inputs are; the first row of the Most Loyal table
    ([customer_loyalty.iloc[0]]) is missing in the same way. *)
Theorem dashboard_of_empty_selection (df : DataFrame)
    (selected_weekday : list string) (selected_month_2022 selected_month_2023 : string) :
  dashboard df [] selected_weekday selected_month_2022 selected_month_2023
  = Raise IndexError /\
  iloc0 (customer_revenue (filter_df df [] selected_weekday)) = Raise IndexError /\
  iloc0 (customer_loyalty (filter_df df [] selected_weekday)) = Raise IndexError.
Proof.
  unfold dashboard.
  rewrite filter_df_no_category, customer_revenue_nil, customer_loyalty_nil.
  repeat split.
Qed.
End SortContract.

(** ** Top spenders *)

Lemma StronglySorted_app_inv {A : Type} (R : A -> A -> Prop) (l1 l2 : list A) :
  StronglySorted R (l1 ++ l2) ->
  StronglySorted R l1 /\ (forall x y, In x l1 -> In y l2 -> R x y).
Proof.
  induction l1 as [| a l1 IH]; simpl; intros Hs.
  - split; [constructor | intros x y []].
  - inversion Hs as [| a' l' Hs' Hall]; subst.
    destruct (IH Hs') as [Hs1 Hcross]. split.
    + constructor; [assumption |].
      apply Forall_forall. intros x Hx.
      rewrite Forall_forall in Hall. apply Hall, in_or_app. now left.
    + intros x y [<- | Hx] Hy.
      * rewrite Forall_forall in Hall. apply Hall, in_or_app. now right.
      * now apply Hcross.
Qed.

Lemma head_n_incl {A : Type} (n : nat) (l : list A) (x : A) :
  In x (head_n n l) -> In x l.
Proof.
  unfold head_n. intros Hx. rewrite <- (firstn_skipn n l). apply in_or_app. now left.
Qed.

Lemma head_n_length {A : Type} (n : nat) (l : list A) :
  (List.length (head_n n l) <= n)%nat.
Proof. unfold head_n. apply firstn_le_length. Qed.

Lemma head_n_StronglySorted {A : Type} (R : A -> A -> Prop) (n : nat) (l : list A) :
  StronglySorted R l -> StronglySorted R (head_n n l).
Proof.
  unfold head_n. intros Hs. rewrite <- (firstn_skipn n l) in Hs.
  now apply StronglySorted_app_inv in Hs.
Qed.

Lemma head_n_NoDup_map {A B : Type} (g : A -> B) (n : nat) (l : list A) :
  NoDup (map g l) -> NoDup (map g (head_n n l)).
Proof.
  unfold head_n. intros Hnd. rewrite <- (firstn_skipn n l), map_app in Hnd.
  now apply NoDup_app_remove_r in Hnd.
Qed.

(* a row is in the head, or the head is full and every row of it ranks
   at least as high *)
Lemma head_n_top {A : Type} (R : A -> A -> Prop) (n : nat) (l : list A) (x : A) :
  StronglySorted R l -> In x l ->
  In x (head_n n l) \/
  (List.length (head_n n l) = n /\ forall e, In e (head_n n l) -> R e x).
Proof.
  unfold head_n. intros Hs Hx.
  rewrite <- (firstn_skipn n l) in Hs, Hx.
  apply in_app_or in Hx as [Hx | Hx]; [now left | right].
  split.
  - apply firstn_length_le.
    destruct (Nat.le_gt_cases n (List.length l)) as [Hle | Hgt]; [assumption |].
    rewrite skipn_all2 in Hx by lia. destruct Hx.
  - apply StronglySorted_app_inv in Hs as [_ Hcross].
    intros e He. now apply Hcross.
Qed.

Section TopSpenders.
Context {S : SortValues}.

End TopSpenders.

(** ** The sample sort meets the contract *)

Lemma Qle_bool_false (x y : Q) : Qle_bool x y = false -> y <= x.
Proof.
  intros E. apply Qlt_le_weak, Qnot_le_lt. intros Hle.
  apply Qle_bool_iff in Hle. congruence.
Qed.

Lemma sort_desc_stable_sorted {A : Type} (by_ : A -> Q) (l : list A) :
  StronglySorted (fun x y => by_ y <= by_ x) (sort_desc_stable by_ l).
Proof.
  unfold sort_desc_stable. apply sorted_StronglySorted.
  - intros x y z Hxy Hyz. eapply Qle_trans; eassumption.
  - intros x y E. now apply Qle_bool_iff.
  - intros x y E. now apply Qle_bool_false.
Qed.

Definition pandas_stable : SortValues :=
  {| sort_values_desc := @sort_desc_stable;
     sort_values_perm := fun A by_ l => sorted_perm _ l;
     sort_values_sorted := @sort_desc_stable_sorted |}.

(* the worked example: Drinks on Monday and Tuesday *)
Example sample_view :
  filter_df sample_df ["Drinks"] ["Monday"; "Tuesday"]
  = [ mk_row "o1" "A" "Drinks" 2 10 (2022, (1, 3))%Z "Monday";
      mk_row "o2" "B" "Drinks" 1 5 (2023, (2, 7))%Z "Tuesday" ].
Proof. reflexivity. Qed.

Example sample_top_spenders :
  customer_revenue (S := pandas_stable)
    (filter_df sample_df ["Drinks"] ["Monday"; "Tuesday"])
  = [ ("A", 10); ("B", 5) ].
Proof. vm_compute. reflexivity. Qed.

Example sample_rev_cat :
  rev_cat (filter_df sample_df ["Drinks"] ["Monday"; "Tuesday"]) = [ ("Drinks", 15) ].
Proof. vm_compute. reflexivity. Qed.


(** ** Daily revenue: the month map *)

Local Open Scope Z_scope.

Lemma dict_get_In {V : Type} (d : list (Z * V)) (k : Z) (v : V) :
  dict_get d k = Ok v -> In (k, v) d.
Proof.
  induction d as [| [k' v'] d IH]; simpl; [discriminate |].
  destruct (Z.eqb_spec k' k) as [-> | _].
  - intros E. inversion E. now left.
  - intros E. right. now apply IH.
Qed.

Ltac each_entry H :=
  apply dict_get_In in H; unfold MONTH_MAP in H; simpl in H;
  repeat (destruct H as [H | H]; [inversion H; subst; clear H |]);
  [.. | destruct H].

Lemma dict_get_MONTH_MAP_range (m : Z) (name : string) :
  dict_get MONTH_MAP m = Ok name -> 1 <= m <= 12.
Proof. intros Hget. each_entry Hget; lia. Qed.

Lemma month_cases (m : Z) :
  1 <= m <= 12 ->
  m = 1 \/ m = 2 \/ m = 3 \/ m = 4 \/ m = 5 \/ m = 6 \/
  m = 7 \/ m = 8 \/ m = 9 \/ m = 10 \/ m = 11 \/ m = 12.
Proof. lia. Qed.

Ltac each_month H :=
  apply month_cases in H;
  repeat (destruct H as [H | H]; [subst |]); [.. | subst].

Lemma dict_get_MONTH_MAP_total (m : Z) :
  1 <= m <= 12 -> exists name, dict_get MONTH_MAP m = Ok name.
Proof. intros Hm. each_month Hm; eexists; reflexivity. Qed.

(* the name of a month leads back to its number, and is not the sentinel *)
Lemma month_lookup_inverse (m : Z) (name : string) :
  dict_get MONTH_MAP m = Ok name ->
  month_num_of name = Ok m /\ String.eqb name "All Months" = false.
Proof. intros Hget. each_entry Hget; split; reflexivity. Qed.

Lemma plot_df_month (df_y : DataFrame) (m : Z) (name : string) :
  dict_get MONTH_MAP m = Ok name ->
  plot_df df_y name = Ok (filter (fun r => month r =? m) df_y).
Proof.
  intros Hget. apply month_lookup_inverse in Hget as [Hnum Hsent].
  unfold plot_df. rewrite Hsent, Hnum. reflexivity.
Qed.

(** C10. For every month number m from 1 to 12, looking the name
    MONTH_MAP[m] up again gives m, so choosing that name narrows the
    year's rows to exactly those whose month is m. *)
Theorem month_name_round_trip (m : Z) :
  1 <= m <= 12 ->
  exists name,
    dict_get MONTH_MAP m = Ok name /\
    month_num_of name = Ok m /\
    forall df_y, plot_df df_y name = Ok (filter (fun r => month r =? m) df_y).
Proof.
  intros Hm. destruct (dict_get_MONTH_MAP_total m Hm) as [name Hget].
  exists name. split; [exact Hget |]. split.
  - now apply month_lookup_inverse.
  - intros df_y. now apply plot_df_month.
Qed.

Lemma month_name_round_trip_witness :
  exists name,
    dict_get MONTH_MAP 9 = Ok name /\
    month_num_of name = Ok 9 /\
    forall df_y, plot_df df_y name = Ok (filter (fun r => month r =? 9) df_y).
Proof. apply (month_name_round_trip 9). lia. Defined.

(** ** Daily revenue: month options and panels *)

Lemma map_result_Forall2 {A B : Type} (f : A -> Result B) (l : list A) (ys : list B) :
  map_result f l = Ok ys -> Forall2 (fun x y => f x = Ok y) l ys.
Proof.
  revert ys. induction l as [| x l IH]; simpl; intros ys E.
  - inversion E. constructor.
  - destruct (f x) as [y |] eqn:Ey; simpl in E; [| discriminate].
    destruct (map_result f l) as [ys' |]; simpl in E; [| discriminate].
    inversion E; subst. constructor; [assumption | now apply IH].
Qed.

Lemma map_result_total {A B : Type} (f : A -> Result B) (l : list A) :
  (forall x, In x l -> exists y, f x = Ok y) -> exists ys, map_result f l = Ok ys.
Proof.
  induction l as [| x l IH]; simpl; intros Hall.
  - now exists [].
  - destruct (Hall x (or_introl eq_refl)) as [y ->].
    destruct IH as [ys ->]; [intros x' Hx'; apply Hall; now right |].
    now exists (y :: ys).
Qed.

Lemma Forall2_In_r {A B : Type} (P : A -> B -> Prop) (l : list A) (ys : list B) (y : B) :
  Forall2 P l ys -> In y ys -> exists x, In x l /\ P x y.
Proof.
  induction 1 as [| x y' l ys Hxy Hrest IH]; simpl; [intros [] |].
  intros [<- | Hy].
  - exists x. auto.
  - destruct (IH Hy) as (x' & Hx' & HP). exists x'. auto.
Qed.

Lemma df_year_In (y : Z) (filtered_df : DataFrame) (r : Row) :
  In r (df_year y filtered_df) <-> In r filtered_df /\ year r = y.
Proof. unfold df_year. now rewrite filter_In, Z.eqb_eq. Qed.

Lemma months_present_In (df_y : DataFrame) (m : Z) :
  In m (months_present df_y) <-> exists r, In r df_y /\ month r = m.
Proof. exact (group_keys_In month df_y m). Qed.

Lemma StronglySorted_le_NoDup_lt (l : list Z) :
  StronglySorted Z.le l -> NoDup l -> StronglySorted Z.lt l.
Proof.
  induction 1 as [| a l Hs IH Hall]; intros Hnd; [constructor |].
  inversion Hnd as [| a' l' Hnotin Hnd']; subst.
  constructor; [now apply IH |].
  rewrite Forall_forall in *. intros x Hx.
  specialize (Hall x Hx).
  assert (a <> x) by (intros ->; contradiction). lia.
Qed.

Lemma months_present_sorted (df_y : DataFrame) :
  StronglySorted Z.lt (months_present df_y).
Proof.
  apply StronglySorted_le_NoDup_lt.
  - unfold months_present. apply sorted_StronglySorted.
    + intros x y z. apply Z.le_trans.
    + intros x y E. now apply Z.leb_le.
    + intros x y E. apply Z.leb_gt in E. lia.
  - exact (group_keys_NoDup month df_y).
Qed.

Lemma month_options_names (df_y : DataFrame) (opts : list string) :
  month_options df_y = Ok opts ->
  exists names,
    opts = "All Months" :: names /\
    Forall2 (fun m name => dict_get MONTH_MAP m = Ok name) (months_present df_y) names.
Proof.
  unfold month_options. intros E.
  destruct (map_result (dict_get MONTH_MAP) (months_present df_y)) as [names |] eqn:En;
    simpl in E; [| discriminate].
  inversion E; subst. exists names. split; [reflexivity |].
  now apply map_result_Forall2.
Qed.

(* what an offered option selects: all rows of the year for the
   sentinel, the rows of a month that has rows for a month name *)
Lemma offered_option_selects (df_y : DataFrame) (opts : list string) (sel : string) :
  month_options df_y = Ok opts -> In sel opts ->
  exists plot, plot_df df_y sel = Ok plot /\ (sel = "All Months" /\ plot = df_y \/ plot <> []).
Proof.
  intros Hopts Hsel.
  apply month_options_names in Hopts as (names & -> & Hnames).
  destruct Hsel as [<- | Hsel].
  - exists df_y. split; [reflexivity | left; split; reflexivity].
  - destruct (Forall2_In_r _ _ _ _ Hnames Hsel) as (m & Hm & Hget).
    exists (filter (fun r => month r =? m) df_y). split.
    + now apply plot_df_month.
    + right. apply months_present_In in Hm as (r & Hr & Hmr).
      intros Hnil.
      assert (Hin : In r (filter (fun r => month r =? m) df_y)).
      { apply filter_In. split; [assumption | now apply Z.eqb_eq]. }
      rewrite Hnil in Hin. exact Hin.
Qed.

Lemma daily_rev_empty (plot : DataFrame) : empty (daily_rev plot) = true <-> plot = [].
Proof.
  unfold daily_rev. rewrite <- (agg_groupby_empty_iff sum_order_total day plot).
  destruct (agg sum_order_total (groupby day plot)); simpl; split; congruence.
Qed.

(** C8. For each year, when the month column holds calendar months
    (1..12, as [dt.month] yields), the options offered are "All Months"
    followed by the names of the months that occur in that year's rows of
    the Filtered View, by ascending month number and each once; every
    option offered resolves to rows (no failing lookup), and a month name
    offered always selects at least one row. *)
Theorem month_options_offered (y : Z) (filtered_df : DataFrame) :
  Forall (fun r => 1 <= month r <= 12) filtered_df ->
  let df_y := df_year y filtered_df in
  exists names,
    month_options df_y = Ok ("All Months" :: names) /\
    Forall2 (fun m name => dict_get MONTH_MAP m = Ok name) (months_present df_y) names /\
    StronglySorted Z.lt (months_present df_y) /\
    (forall m, In m (months_present df_y) <->
               exists r, In r filtered_df /\ year r = y /\ month r = m) /\
    (forall sel, In sel ("All Months" :: names) ->
       exists plot, plot_df df_y sel = Ok plot /\
                    (sel = "All Months" /\ plot = df_y \/ plot <> [])).
Proof.
  intros Hwf df_y.
  assert (Hopts : exists opts, month_options df_y = Ok opts).
  { unfold month_options.
    destruct (map_result_total (dict_get MONTH_MAP) (months_present df_y)) as [names ->].
    - intros m Hm. apply dict_get_MONTH_MAP_total.
      apply months_present_In in Hm as (r & Hr & <-).
      apply df_year_In in Hr as [Hr _].
      rewrite Forall_forall in Hwf. now apply Hwf.
    - now eexists. }
  destruct Hopts as [opts Hopts].
  destruct (month_options_names _ _ Hopts) as (names & -> & Hnames).
  exists names. split; [exact Hopts |]. split; [exact Hnames |].
  split; [apply months_present_sorted |]. split.
  - intros m. rewrite months_present_In. split.
    + intros (r & Hr & Hm). apply df_year_In in Hr as [Hr Hy]. now exists r.
    + intros (r & Hr & Hy & Hm). exists r. split; [| assumption].
      apply df_year_In. now split.
  - intros sel Hsel. now apply (offered_option_selects df_y _ sel Hopts).
Qed.

Lemma month_options_offered_witness :
  exists names,
    month_options (df_year 2022 sample_df) = Ok ("All Months" :: names) /\
    Forall2 (fun m name => dict_get MONTH_MAP m = Ok name)
            (months_present (df_year 2022 sample_df)) names /\
    StronglySorted Z.lt (months_present (df_year 2022 sample_df)) /\
    (forall m, In m (months_present (df_year 2022 sample_df)) <->
               exists r, In r sample_df /\ year r = 2022 /\ month r = m) /\
    (forall sel, In sel ("All Months" :: names) ->
       exists plot, plot_df (df_year 2022 sample_df) sel = Ok plot /\
                    (sel = "All Months" /\ plot = df_year 2022 sample_df \/ plot <> [])).
Proof.
  apply (month_options_offered 2022 sample_df).
  repeat constructor; vm_compute; discriminate.
Defined.

Example sample_month_options :
  month_options (df_year 2022 sample_df) = Ok ["All Months"; "January"] /\
  month_options (df_year 2023 sample_df) = Ok ["All Months"; "February"].
Proof. split; reflexivity. Qed.

Lemma filter_filter_andb {A : Type} (p q : A -> bool) (l : list A) :
  filter p (filter q l) = filter (fun x => q x && p x) l.
Proof.
  induction l as [| a l IH]; simpl; [reflexivity |].
  destruct (q a); simpl; [destruct (p a) |]; now rewrite IH.
Qed.

Lemma daily_revenue_panel_unfold (y : Z) (filtered_df : DataFrame)
    (opts : list string) (sel : string) (plot : DataFrame) :
  month_options (df_year y filtered_df) = Ok opts ->
  plot_df (df_year y filtered_df) sel = Ok plot ->
  daily_revenue_panel y filtered_df sel
  = if empty (daily_rev plot) then Ok (Info "No data available for this month.")
    else Ok (LineChart (daily_rev plot)).
Proof.
  intros Hopts Hplot. unfold daily_revenue_panel. rewrite Hopts, Hplot. reflexivity.
Qed.

(* the rows of the view with year y and month m *)
Lemma rows_of_year_month (y m : Z) (filtered_df : DataFrame) :
  filter (fun r => (month r =? m)%Z) (df_year y filtered_df)
  = filter (fun r => (year r =? y)%Z && (month r =? m)%Z) filtered_df.
Proof. unfold df_year. apply filter_filter_andb. Qed.

Lemma filter_nil_iff {A : Type} (f : A -> bool) (l : list A) :
  filter f l = [] <-> forall x, In x l -> f x = false.
Proof.
  induction l as [| a l IH]; simpl.
  - split; [intros _ x [] | reflexivity].
  - destruct (f a) eqn:E.
    + split; [discriminate |]. intros Hall.
      specialize (Hall a (or_introl eq_refl)). congruence.
    + rewrite IH. split.
      * intros Hall x [<- | Hx]; auto.
      * intros Hall x Hx. apply Hall. now right.
Qed.

(** C7. For each year y whose selectbox could be built: with "All Months"
    selected and no row of the Filtered View in year y, and with a month
    name selected and no row of the Filtered View in year y and that
    month, the panel is the message "No data available for this month."
    (it neither raises nor draws a chart); when such rows exist the panel
    is the chart of the daily revenue of exactly those rows; and no
    selection ever yields a chart of an empty table. *)
Theorem daily_revenue_reports_no_data (y : Z) (filtered_df : DataFrame)
    (opts : list string) :
  month_options (df_year y filtered_df) = Ok opts ->
  ((forall r, In r filtered_df -> year r <> y) ->
   daily_revenue_panel y filtered_df "All Months"
   = Ok (Info "No data available for this month.")) /\
  (forall m name, dict_get MONTH_MAP m = Ok name ->
     (forall r, In r filtered_df -> year r = y -> month r <> m) ->
     daily_revenue_panel y filtered_df name
     = Ok (Info "No data available for this month.")) /\
  ((exists r, In r filtered_df /\ year r = y) ->
   daily_revenue_panel y filtered_df "All Months"
   = Ok (LineChart (daily_rev (filter (fun r => (year r =? y)%Z) filtered_df)))) /\
  (forall m name, dict_get MONTH_MAP m = Ok name ->
     (exists r, In r filtered_df /\ year r = y /\ month r = m) ->
     daily_revenue_panel y filtered_df name
     = Ok (LineChart
             (daily_rev (filter (fun r => (year r =? y)%Z && (month r =? m)%Z)
                                filtered_df)))) /\
  (forall sel t, daily_revenue_panel y filtered_df sel = Ok (LineChart t) -> t <> []).
Proof.
  intros Hopts.
  assert (Hall : forall plot,
             plot_df (df_year y filtered_df) "All Months" = Ok plot ->
             plot = df_year y filtered_df).
  { intros plot E. unfold plot_df in E. simpl in E. now inversion E. }
  assert (Hpanel : forall sel plot,
             plot_df (df_year y filtered_df) sel = Ok plot ->
             (plot = [] ->
              daily_revenue_panel y filtered_df sel
              = Ok (Info "No data available for this month.")) /\
             (plot <> [] ->
              daily_revenue_panel y filtered_df sel = Ok (LineChart (daily_rev plot)))).
  { intros sel plot Hplot.
    rewrite (daily_revenue_panel_unfold _ _ _ _ _ Hopts Hplot).
    destruct (empty (daily_rev plot)) eqn:E.
    - apply daily_rev_empty in E. split; [reflexivity | contradiction].
    - split; [| reflexivity]. intros ->. simpl in E. discriminate. }
  split; [| split; [| split; [| split]]].
  - intros Hnone. apply (Hpanel "All Months" (df_year y filtered_df) eq_refl).
    unfold df_year. apply filter_nil_iff. intros r Hr.
    apply Z.eqb_neq. now apply Hnone.
  - intros m name Hget Hnone.
    apply (Hpanel name _ (plot_df_month _ m name Hget)).
    apply filter_nil_iff. intros r Hr. apply df_year_In in Hr as [Hr Hy].
    apply Z.eqb_neq. now apply Hnone.
  - intros (r & Hr & Hy).
    apply (Hpanel "All Months" (df_year y filtered_df) eq_refl).
    intros Hnil. assert (Hin : In r (df_year y filtered_df)) by now apply df_year_In.
    rewrite Hnil in Hin. exact Hin.
  - intros m name Hget (r & Hr & Hy & Hm).
    rewrite <- rows_of_year_month.
    apply (Hpanel name _ (plot_df_month _ m name Hget)).
    intros Hnil.
    assert (Hin : In r (filter (fun r => (month r =? m)%Z) (df_year y filtered_df))).
    { apply filter_In. split; [now apply df_year_In | now apply Z.eqb_eq]. }
    rewrite Hnil in Hin. exact Hin.
  - intros sel t Ht. unfold daily_revenue_panel in Ht. rewrite Hopts in Ht. simpl in Ht.
    destruct (plot_df (df_year y filtered_df) sel) as [plot |]; simpl in Ht;
      [| discriminate].
    destruct (empty (daily_rev plot)) eqn:E; inversion Ht; subst.
    intros Hnil. rewrite Hnil in E. discriminate.
Qed.

(* 2022 has rows in January only: February reports no data *)
Lemma daily_revenue_reports_no_data_witness :
  daily_revenue_panel 2022 sample_df "February"
  = Ok (Info "No data available for this month.").
Proof.
  destruct (daily_revenue_reports_no_data 2022 sample_df ["All Months"; "January"])
    as (_ & Hmonth & _).
  - reflexivity.
  - apply (Hmonth 2%Z "February").
    + reflexivity.
    + intros r Hr Hy. simpl in Hr.
      destruct Hr as [<- | [<- | [<- | []]]]; simpl in *; lia.
Defined.

Example sample_daily_2022 :
  daily_revenue_panel 2022 sample_df "January"
  = Ok (LineChart [ ((2022, (1, 3)), 30%Q) ]).
Proof. vm_compute. reflexivity. Qed.

(** ** Daily revenue: the two fixed years *)

Lemma df_year_rows_of_2022_2023 (y : Z) (filtered_df : DataFrame) :
  y = 2022 \/ y = 2023 ->
  df_year y (rows_of_2022_2023 filtered_df) = df_year y filtered_df.
Proof.
  intros Hy. unfold df_year, rows_of_2022_2023.
  induction filtered_df as [| r df IH]; simpl; [reflexivity |].
  destruct (Z.eqb_spec (year r) 2022) as [E22 | N22];
    destruct (Z.eqb_spec (year r) 2023) as [E23 | N23]; simpl;
    destruct (Z.eqb_spec (year r) y) as [Ey | Ny]; try rewrite IH; try reflexivity;
    lia.
Qed.

Lemma daily_revenue_panel_df_year (y : Z) (u v : DataFrame) (sel : string) :
  df_year y u = df_year y v ->
  daily_revenue_panel y u sel = daily_revenue_panel y v sel.
Proof. intros E. unfold daily_revenue_panel. now rewrite E. Qed.

(** C9. The two daily revenue panels are those of 2022 and of 2023: each
    is unchanged when the rows of every other year are removed from the
    Filtered View, and a row of another year is in neither year's frame. *)
Theorem daily_revenue_only_2022_2023 (filtered_df : DataFrame)
    (selected_month_2022 selected_month_2023 : string) :
  daily_revenue_panel 2022 (rows_of_2022_2023 filtered_df) selected_month_2022
  = daily_revenue_panel 2022 filtered_df selected_month_2022 /\
  daily_revenue_panel 2023 (rows_of_2022_2023 filtered_df) selected_month_2023
  = daily_revenue_panel 2023 filtered_df selected_month_2023 /\
  (forall r, year r <> 2022 -> year r <> 2023 ->
     ~ In r (df_year 2022 filtered_df) /\ ~ In r (df_year 2023 filtered_df)).
Proof.
  split; [| split].
  - apply daily_revenue_panel_df_year, df_year_rows_of_2022_2023. now left.
  - apply daily_revenue_panel_df_year, df_year_rows_of_2022_2023. now right.
  - intros r H22 H23. rewrite !df_year_In. tauto.
Qed.

Lemma daily_revenue_only_2022_2023_witness :
  ~ In (mk_row "o9" "C" "Food" 1 7 (2024, (5, 1)) "Friday")
       (df_year 2022 (mk_row "o9" "C" "Food" 1 7 (2024, (5, 1)) "Friday" :: sample_df)).
Proof.
  destruct (daily_revenue_only_2022_2023
              (mk_row "o9" "C" "Food" 1 7 (2024, (5, 1)) "Friday" :: sample_df)
              "All Months" "All Months") as (_ & _ & Hrow).
  apply Hrow; simpl; lia.
Defined.

(** ** The script on the worked example *)

Example sample_dashboard :
  match dashboard (S := pandas_stable) sample_df
          ["Drinks"] ["Monday"; "Tuesday"] "All Months" "February" with
  | Ok page =>
      page_top_spender page = ("A", 10%Q) /\
      page_most_loyal page = ("A", 1) /\
      total_items_sold (page_kpi page) = 3 /\
      page_daily_2023 page = LineChart [ ((2023, (2, 7)), 5%Q) ]
  | Raise _ => False
  end.
Proof. vm_compute. repeat split. Qed.

(** * Further properties of the pipeline *)

(** ** Key orders *)

#[export] Instance KeyOrdOk_Z : KeyOrdOk Z.
Proof.
  constructor; simpl; intros; rewrite ?Z.leb_le in *; lia.
Qed.

Lemma string_leb_cases (a b : string) :
  String.leb a b = true <-> a = b \/ OrderedTypeEx.String_as_OT.lt a b.
Proof.
  unfold String.leb.
  destruct (String.compare a b) eqn:E.
  - apply OrderedTypeEx.String_as_OT.cmp_eq in E. tauto.
  - apply OrderedTypeEx.String_as_OT.cmp_lt in E. tauto.
  - split; [discriminate |]. intros [-> | Hlt].
    + assert (String.compare b b = Eq) by now apply OrderedTypeEx.String_as_OT.cmp_eq.
      congruence.
    + apply OrderedTypeEx.String_as_OT.cmp_lt in Hlt.
      unfold OrderedTypeEx.String_as_OT.cmp in Hlt. congruence.
Qed.

#[export] Instance KeyOrdOk_string : KeyOrdOk string.
Proof.
  constructor; simpl.
  - apply String.leb_total.
  - intros x y z Hxy Hyz. apply string_leb_cases in Hxy, Hyz. apply string_leb_cases.
    destruct Hxy as [-> | Hxy]; [assumption |].
    destruct Hyz as [<- | Hyz]; [now right |].
    right. eapply OrderedTypeEx.String_as_OT.lt_trans; eassumption.
  - apply String.leb_antisym.
Qed.

Ltac key_cases :=
  repeat match goal with
         | |- context [key_eqb ?x ?y] => destruct (key_eqb_spec x y); subst
         end.

Ltac by_antisym :=
  match goal with
  | N : ?x <> ?y |- _ =>
      exfalso; apply N; apply key_leb_antisym; assumption
  | N : ?x <> ?y |- _ =>
      exfalso; apply N; symmetry; apply key_leb_antisym; assumption
  end.

#[export] Instance KeyOrdOk_pair {K1 K2 : Type}
    `{KeyOk K1} `{KeyOk K2} `{!KeyOrdOk K1} `{!KeyOrdOk K2} : KeyOrdOk (K1 * K2).
Proof.
  constructor.
  - intros [a b] [c d]. simpl. key_cases; try congruence; apply key_leb_total.
  - intros [a b] [c d] [e f]. simpl. key_cases; try congruence; intros Hle1 Hle2;
      first [ assumption | by_antisym | eapply key_leb_trans; eassumption ].
  - intros [a b] [c d]. simpl. key_cases; try congruence; intros Hle1 Hle2;
      first [ by_antisym | f_equal; now apply key_leb_antisym ].
Qed.

Lemma StronglySorted_NoDup_strict {A : Type} (R : A -> A -> Prop) (l : list A) :
  StronglySorted R l -> NoDup l -> StronglySorted (fun x y => R x y /\ x <> y) l.
Proof.
  induction 1 as [| a l Hs IH Hall]; intros Hnd; [constructor |].
  inversion Hnd as [| a' l' Hnotin Hnd']; subst.
  constructor; [now apply IH |].
  rewrite Forall_forall in *. intros x Hx. split; [now apply Hall |].
  intros ->. contradiction.
Qed.

Lemma group_keys_ascending {K A : Type} `{KeyOk K} `{!KeyOrdOk K}
    (by_ : A -> K) (df : list A) :
  StronglySorted key_lt (group_keys by_ df).
Proof.
  unfold key_lt. apply StronglySorted_NoDup_strict.
  - unfold group_keys.
    apply (sorted_StronglySorted key_leb (fun x y => key_leb x y = true)).
    + apply key_leb_trans.
    + auto.
    + intros x y E. destruct (key_leb_total x y); congruence.
  - apply group_keys_NoDup.
Qed.

Lemma key_lt_date (d1 d2 : Date) : key_lt d1 d2 <-> date_lt d1 d2.
Proof.
  destruct d1 as [y1 [m1 dd1]], d2 as [y2 [m2 dd2]].
  unfold key_lt, date_lt. simpl.
  destruct (Z.eqb_spec y1 y2) as [-> | Hy].
  - destruct (Z.eqb_spec m1 m2) as [-> | Hm]; rewrite Z.leb_le; split.
    + intros [Hle Hne]. assert (dd1 <> dd2) by congruence. lia.
    + intros H. split; [lia |]. intros E. inversion E. lia.
    + intros [Hle Hne]. lia.
    + intros H. split; [lia |]. intros E. inversion E. lia.
  - rewrite Z.leb_le. split.
    + intros [Hle Hne]. lia.
    + intros H. split; [lia |]. intros E. inversion E. lia.
Qed.

(** ** groupby splits the frame *)

Section Partition.
Context {K A : Type} `{KeyOk K}.

Lemma group_of_cons (by_ : A -> K) (r : A) (df : list A) (k : K) :
  group_of by_ (r :: df) k
  = if key_eqb (by_ r) k then r :: group_of by_ df k else group_of by_ df k.
Proof. reflexivity. Qed.

Lemma concat_groups_skip (by_ : A -> K) (r : A) (df : list A) (ks : list K) :
  ~ In (by_ r) ks ->
  List.concat (map (group_of by_ (r :: df)) ks) = List.concat (map (group_of by_ df) ks).
Proof.
  induction ks as [| k ks IH]; simpl; intros Hnot; [reflexivity |].
  destruct (key_eqb_spec (by_ r) k) as [E | _]; [exfalso; auto |].
  rewrite IH; [reflexivity | tauto].
Qed.

Lemma concat_groups_cons (by_ : A -> K) (r : A) (df : list A) (ks : list K) :
  NoDup ks -> In (by_ r) ks ->
  Permutation (List.concat (map (group_of by_ (r :: df)) ks))
              (r :: List.concat (map (group_of by_ df) ks)).
Proof.
  induction 1 as [| k ks Hnotin Hnd IH]; simpl; [intros [] |].
  intros [-> | Hin].
  - rewrite key_eqb_refl, concat_groups_skip by assumption. reflexivity.
  - destruct (key_eqb_spec (by_ r) k) as [<- | _]; [contradiction |].
    rewrite (IH Hin). symmetry. apply Permutation_middle.
Qed.

Lemma concat_groups_perm (by_ : A -> K) (df : list A) (ks : list K) :
  NoDup ks -> (forall r, In r df -> In (by_ r) ks) ->
  Permutation (List.concat (map (group_of by_ df) ks)) df.
Proof.
  intros Hnd. induction df as [| r df IH]; intros Hcover.
  - clear Hnd Hcover. induction ks as [| k ks IHk]; simpl; [constructor | exact IHk].
  - rewrite concat_groups_cons; [| assumption | apply Hcover; now left].
    constructor. apply IH. intros r' Hr'. apply Hcover. now right.
Qed.

(** X1. Every groupby of the script splits the frame: the groups are
    non-empty, a group holds the rows with its key and only those, no
    key has two groups, and the groups together hold every row of the
    frame exactly once. *)
Theorem groupby_splits_frame (by_ : A -> K) (df : list A) :
  Permutation (List.concat (map snd (groupby by_ df))) df /\
  (forall k g, In (k, g) (groupby by_ df) ->
     g <> [] /\ (forall r, In r g <-> In r df /\ by_ r = k)) /\
  NoDup (map fst (groupby by_ df)).
Proof.
  unfold groupby. split; [| split].
  - rewrite map_map. simpl. apply concat_groups_perm.
    + apply group_keys_NoDup.
    + intros r Hr. apply group_keys_In. now exists r.
  - intros k g Hin. apply in_map_iff in Hin as (k' & E & Hk). inversion E; subst.
    apply group_keys_In in Hk as (r & Hr & Hk).
    assert (Hmem : forall r', In r' (group_of by_ df k) <-> In r' df /\ by_ r' = k).
    { intros r'. unfold group_of. now rewrite filter_In, key_eqb_eq. }
    split; [| exact Hmem].
    intros Hnil. assert (Hin : In r (group_of by_ df k)) by now apply Hmem.
    rewrite Hnil in Hin. exact Hin.
  - rewrite map_map. simpl. rewrite map_id. apply group_keys_NoDup.
Qed.
End Partition.

Lemma StronglySorted_weaken {A : Type} (R R' : A -> A -> Prop) (l : list A) :
  (forall x y, R x y -> R' x y) -> StronglySorted R l -> StronglySorted R' l.
Proof.
  intros Himp. induction 1 as [| a l Hs IH Hall]; constructor; [assumption |].
  eapply Forall_impl; [| exact Hall]. auto.
Qed.

(** X2. The category, item, weekday and daily tables come out in strictly
    ascending key order with no key twice: categories and weekdays
    alphabetically, (category, item) pairs by category then item, and the
    daily table in calendar order, so the line chart is a time series. *)
Theorem tables_in_key_order (filtered_df : DataFrame) :
  StronglySorted key_lt (map fst (rev_cat filtered_df)) /\
  StronglySorted key_lt (map fst (vol_cat filtered_df)) /\
  StronglySorted key_lt (map fst (item_perf filtered_df)) /\
  StronglySorted key_lt (map fst (weekday_order filtered_df)) /\
  StronglySorted date_lt (map fst (daily_rev filtered_df)).
Proof.
  unfold rev_cat, vol_cat, item_perf, weekday_order, daily_rev.
  rewrite !agg_groupby_fst.
  repeat split; try apply group_keys_ascending.
  eapply StronglySorted_weaken; [| apply group_keys_ascending].
  intros x y. apply key_lt_date.
Qed.

Lemma groupby_splits_frame_witness :
  Permutation (List.concat (map snd (groupby category sample_df))) sample_df.
Proof. exact (proj1 (groupby_splits_frame (H0 := KeyOk_string) category sample_df)). Defined.

(** ** Quantities over a partition *)

Lemma sumZ_map_ext {A : Type} (g h : A -> Z) (l : list A) :
  (forall x, In x l -> g x = h x) -> sumZ (map g l) = sumZ (map h l).
Proof.
  induction l as [| a l IH]; simpl; intros Hext; [reflexivity |].
  rewrite (Hext a (or_introl eq_refl)), IH; [reflexivity |].
  intros x Hx. apply Hext. now right.
Qed.

Lemma sumZ_map_plus {A : Type} (g h : A -> Z) (l : list A) :
  sumZ (map (fun x => g x + h x) l) = sumZ (map g l) + sumZ (map h l).
Proof. induction l as [| a l IH]; simpl; lia. Qed.

Lemma sumZ_map_zero {A : Type} (g : A -> Z) (l : list A) :
  (forall x, In x l -> g x = 0) -> sumZ (map g l) = 0.
Proof.
  induction l as [| a l IH]; simpl; intros Hz; [reflexivity |].
  rewrite (Hz a (or_introl eq_refl)), IH; [reflexivity |].
  intros x Hx. apply Hz. now right.
Qed.

Lemma sumZ_indicator {K : Type} `{KeyOk K} (x : K) (v : Z) (ks : list K) :
  NoDup ks -> In x ks ->
  sumZ (map (fun k => if key_eqb x k then v else 0) ks) = v.
Proof.
  induction 1 as [| k ks Hnotin Hnd IH]; simpl; [intros [] |].
  intros [-> | Hx].
  - rewrite key_eqb_refl, sumZ_map_zero; [lia |].
    intros y Hy. destruct (key_eqb_spec x y) as [-> | _]; [contradiction | reflexivity].
  - destruct (key_eqb_spec x k) as [-> | _]; [contradiction |].
    rewrite IH by assumption. lia.
Qed.

Lemma sumZ_over_groups {K : Type} `{KeyOk K} {A : Type}
    (by_ : A -> K) (f : A -> Z) (ks : list K) (df : list A) :
  NoDup ks -> (forall r, In r df -> In (by_ r) ks) ->
  sumZ (map (fun k => sumZ (map f (group_of by_ df k))) ks) = sumZ (map f df).
Proof.
  intros Hnd. induction df as [| r df IH]; intros Hcover.
  - simpl. apply sumZ_map_zero. reflexivity.
  - transitivity
      (sumZ (map (fun k => (if key_eqb (by_ r) k then f r else 0)
                           + sumZ (map f (group_of by_ df k))) ks)).
    + apply sumZ_map_ext. intros k _. rewrite group_of_cons.
      destruct (key_eqb (by_ r) k); simpl; lia.
    + rewrite sumZ_map_plus, sumZ_indicator, IH.
      * reflexivity.
      * intros r' Hr'. apply Hcover. now right.
      * assumption.
      * apply Hcover. now left.
Qed.

(** ** int64 sums *)

Lemma wrap_int64_small (z : Z) : - 2 ^ 63 <= z < 2 ^ 63 -> wrap_int64 z = z.
Proof. intros Hz. unfold wrap_int64. rewrite Z.mod_small; lia. Qed.

Lemma wrap_int64_add_l (a b : Z) : wrap_int64 (wrap_int64 a + b) = wrap_int64 (a + b).
Proof.
  unfold wrap_int64. f_equal.
  replace ((a + 2 ^ 63) mod 2 ^ 64 - 2 ^ 63 + b + 2 ^ 63)
    with ((a + 2 ^ 63) mod 2 ^ 64 + b) by lia.
  rewrite Zplus_mod_idemp_l. f_equal. lia.
Qed.

(* adding int64 partial sums in int64 gives the int64 sum of everything *)
Lemma sum_int64_of_wrapped {A : Type} (g : A -> Z) (l : list A) :
  sum_int64 (map (fun x => wrap_int64 (g x)) l) = sum_int64 (map g l).
Proof.
  unfold sum_int64. induction l as [| a l IH]; simpl; [reflexivity |].
  rewrite wrap_int64_add_l.
  rewrite (Z.add_comm (g a)), <- wrap_int64_add_l, IH, wrap_int64_add_l.
  f_equal. lia.
Qed.

Lemma sum_int64_of_group_sums {K : Type} (G : K -> list Row) (ks : list K) :
  sum_int64 (map (fun k => sum_quantity (G k)) ks)
  = sum_int64 (map (fun k => sumZ (map quantity (G k))) ks).
Proof. exact (sum_int64_of_wrapped (fun k => sumZ (map quantity (G k))) ks). Qed.

Lemma sumZ_nonneg {A : Type} (f : A -> Z) (l : list A) :
  Forall (fun x => 0 <= f x) l -> 0 <= sumZ (map f l).
Proof. induction 1; simpl; lia. Qed.

Lemma sumZ_filter_le {A : Type} (f : A -> Z) (p : A -> bool) (l : list A) :
  Forall (fun x => 0 <= f x) l ->
  0 <= sumZ (map f (filter p l)) <= sumZ (map f l).
Proof.
  induction 1 as [| a l Ha Hl IH]; simpl; [lia |].
  destruct (p a); simpl; lia.
Qed.

(** X3. The per-category quantities, added up as pandas adds an int64
    column, give the Total Items Sold KPI, for every Filtered View (also
    when a sum leaves the int64 range and wraps).  When no quantity is
    negative and the total is below 2^63 nothing wraps: the quantities of
    the table add up to the KPI, which is the sum of the quantities. *)
Theorem volume_by_category_conserves_total (filtered_df : DataFrame) :
  sum_int64 (map snd (vol_cat filtered_df)) = total_items_sold (kpi_metrics filtered_df) /\
  (Forall (fun r => 0 <= quantity r) filtered_df ->
   sumZ (map quantity filtered_df) < 2 ^ 63 ->
   sumZ (map snd (vol_cat filtered_df)) = total_items_sold (kpi_metrics filtered_df) /\
   total_items_sold (kpi_metrics filtered_df) = sumZ (map quantity filtered_df)).
Proof.
  unfold vol_cat, kpi_metrics. cbn [total_items_sold]. rewrite agg_groupby_snd.
  assert (Hsum : sumZ (map (fun k => sumZ (map quantity (group_of category filtered_df k)))
                           (group_keys category filtered_df))
                 = sumZ (map quantity filtered_df)).
  { apply sumZ_over_groups.
    - apply group_keys_NoDup.
    - intros r Hr. apply group_keys_In. now exists r. }
  split.
  - rewrite sum_int64_of_group_sums.
    unfold sum_quantity, sum_int64. now rewrite Hsum.
  - intros Hpos Hbound.
    pose proof (sumZ_nonneg quantity filtered_df Hpos) as Htotal.
    assert (Hkpi : sum_quantity filtered_df = sumZ (map quantity filtered_df)).
    { unfold sum_quantity, sum_int64. apply wrap_int64_small. lia. }
    split; [| exact Hkpi]. rewrite Hkpi, <- Hsum.
    apply sumZ_map_ext. intros k _.
    unfold sum_quantity, sum_int64. apply wrap_int64_small.
    pose proof (sumZ_filter_le quantity (fun r => key_eqb (category r) k)
                  filtered_df Hpos) as Hle.
    unfold group_of. lia.
Qed.

Lemma volume_by_category_conserves_total_witness :
  sumZ (map snd (vol_cat sample_df)) = total_items_sold (kpi_metrics sample_df) /\
  total_items_sold (kpi_metrics sample_df) = sumZ (map quantity sample_df).
Proof.
  apply (volume_by_category_conserves_total sample_df).
  - repeat constructor; vm_compute; discriminate.
  - vm_compute. reflexivity.
Defined.

(** ** Items within a category *)

Lemma filter_map_swap {A B : Type} (p : B -> bool) (g : A -> B) (l : list A) :
  filter p (map g l) = map g (filter (fun x => p (g x)) l).
Proof.
  induction l as [| a l IH]; simpl; [reflexivity |].
  destruct (p (g a)); simpl; now rewrite IH.
Qed.

Lemma items_of_category_agg {B : Type} (f : list Row -> B) (c : string)
    (filtered_df : DataFrame) :
  items_of_category c (agg f (groupby category_item filtered_df))
  = map (fun k => (k, f (group_of category_item filtered_df k)))
        (filter (fun k => String.eqb (fst k) c) (group_keys category_item filtered_df)).
Proof.
  unfold items_of_category. rewrite agg_groupby, filter_map_swap. reflexivity.
Qed.

Lemma filter_filter_absorb {A : Type} (p q : A -> bool) (l : list A) :
  (forall x, p x = true -> q x = true) -> filter p (filter q l) = filter p l.
Proof.
  intros Himp. induction l as [| a l IH]; simpl; [reflexivity |].
  destruct (q a) eqn:Eq; simpl.
  - now rewrite IH.
  - destruct (p a) eqn:Ep; [| exact IH].
    apply Himp in Ep. congruence.
Qed.

(* the rows of an item of category c are found inside the category's group *)
Lemma group_of_item_in_category (filtered_df : DataFrame) (c : string)
    (k : string * string) :
  fst k = c ->
  group_of category_item (group_of category filtered_df c) k
  = group_of category_item filtered_df k.
Proof.
  intros Hk. unfold group_of. apply filter_filter_absorb.
  intros r E. apply key_eqb_eq in E. apply key_eqb_eq.
  rewrite <- Hk, <- E. reflexivity.
Qed.

Lemma item_keys_of_category (filtered_df : DataFrame) (c : string) :
  let ks := filter (fun k => String.eqb (fst k) c)
                   (group_keys category_item filtered_df) in
  NoDup ks /\
  (forall r, In r (group_of category filtered_df c) -> In (category_item r) ks) /\
  (forall k, In k ks -> fst k = c).
Proof.
  cbv zeta. split; [| split].
  - apply NoDup_filter, group_keys_NoDup.
  - intros r Hr. unfold group_of in Hr. apply filter_In in Hr as [Hr Hc].
    apply filter_In. split.
    + apply group_keys_In. now exists r.
    + exact Hc.
  - intros k Hk. apply filter_In in Hk as [_ Hk]. now apply String.eqb_eq.
Qed.

(** X4. The item table refines the volume table: for every category, the
    quantities of its (category, item) rows, added up as pandas adds an
    int64 column, give the quantity of the category's rows, which is the
    figure the Volume by Category table shows for it. *)
Theorem item_perf_refines_categories (filtered_df : DataFrame) (c : string) :
  sum_int64 (map (fun row => fst (snd row))
                 (items_of_category c (item_perf filtered_df)))
  = sum_quantity (group_of category filtered_df c) /\
  (forall q, In (c, q) (vol_cat filtered_df) ->
     sum_int64 (map (fun row => fst (snd row))
                    (items_of_category c (item_perf filtered_df))) = q).
Proof.
  destruct (item_keys_of_category filtered_df c) as (Hnd & Hcover & Hfst).
  assert (Hitems :
    sum_int64 (map (fun row => fst (snd row))
                   (items_of_category c (item_perf filtered_df)))
    = sum_quantity (group_of category filtered_df c)).
  { change (item_perf filtered_df)
      with (agg (fun g => (sum_quantity g, sum_order_total g))
                (groupby category_item filtered_df)).
    rewrite items_of_category_agg, !map_map. cbn [fst snd].
    rewrite sum_int64_of_group_sums.
    unfold sum_quantity, sum_int64. f_equal.
    rewrite <- (sumZ_over_groups category_item quantity _ _ Hnd Hcover).
    apply sumZ_map_ext. intros k Hk.
    now rewrite group_of_item_in_category by auto. }
  split; [exact Hitems |].
  intros q Hq. rewrite Hitems.
  unfold vol_cat in Hq. now apply agg_groupby_In in Hq as [_ ->].
Qed.

Lemma item_perf_refines_categories_witness :
  sum_int64 (map (fun row => fst (snd row))
                 (items_of_category "Drinks" (item_perf sample_df))) = 3.
Proof.
  destruct (item_perf_refines_categories sample_df "Drinks") as (_ & Hvol).
  apply Hvol. vm_compute. left. reflexivity.
Defined.

(** ** Distinct orders *)

Lemma unique_length_le {K : Type} `{Key K} (l : list K) :
  (List.length (unique l) <= List.length l)%nat.
Proof.
  induction l as [| x t IH]; simpl; [lia |].
  pose proof (filter_length_bound (fun y => negb (key_eqb y x)) (unique t)). lia.
Qed.

Lemma nunique_bounds {K : Type} `{Key K} (l : list K) :
  l <> [] -> 1 <= nunique l <= Z.of_nat (List.length l).
Proof.
  intros Hne. unfold nunique. pose proof (unique_length_le l).
  destruct l as [| x t]; [congruence |]. simpl in *. lia.
Qed.

Lemma sumZ_ones {A : Type} (l : list A) :
  sumZ (map (fun _ => 1) l) = Z.of_nat (List.length l).
Proof.
  induction l as [| a l IH]; [reflexivity |].
  cbn [map sumZ List.length]. rewrite Nat2Z.inj_succ. lia.
Qed.

Lemma sumZ_map_le {A : Type} (g h : A -> Z) (l : list A) :
  (forall x, In x l -> g x <= h x) -> sumZ (map g l) <= sumZ (map h l).
Proof.
  induction l as [| a l IH]; simpl; intros Hle; [lia |].
  pose proof (Hle a (or_introl eq_refl)).
  assert (sumZ (map g l) <= sumZ (map h l)) by (apply IH; intros x Hx; apply Hle; now right).
  lia.
Qed.

Lemma length_concat_sumZ {A : Type} (ls : list (list A)) :
  Z.of_nat (List.length (List.concat ls))
  = sumZ (map (fun l => Z.of_nat (List.length l)) ls).
Proof.
  induction ls as [| l ls IH]; simpl; [reflexivity |].
  rewrite length_app. lia.
Qed.

(* distinct order ids counted group by group: at least the distinct
   order ids of the frame, at most its rows *)
Lemma nunique_by_group_bounds {K : Type} `{KeyOk K} (by_ : Row -> K) (df : DataFrame) :
  nunique_order_id df
  <= sumZ (map snd (agg nunique_order_id (groupby by_ df)))
  <= Z.of_nat (List.length df).
Proof.
  rewrite agg_groupby_snd. split.
  - unfold nunique_order_id at 1. unfold nunique.
    transitivity
      (Z.of_nat (List.length
         (List.concat (map (fun k => unique (map order_id (group_of by_ df k)))
                           (group_keys by_ df))))).
    + apply inj_le. apply NoDup_incl_length; [apply unique_NoDup |].
      intros oid Hoid. apply unique_In, in_map_iff in Hoid as (r & <- & Hr).
      apply in_concat. exists (unique (map order_id (group_of by_ df (by_ r)))). split.
      * apply in_map_iff. exists (by_ r). split; [reflexivity |].
        apply group_keys_In. now exists r.
      * apply unique_In, in_map. unfold group_of. apply filter_In.
        split; [assumption | apply key_eqb_refl].
    + rewrite length_concat_sumZ, map_map. apply Z.eq_le_incl. reflexivity.
  - rewrite <- (sumZ_ones df).
    rewrite <- (sumZ_over_groups by_ (fun _ => 1) (group_keys by_ df) df).
    + apply sumZ_map_le. intros k _. rewrite sumZ_ones.
      unfold nunique_order_id, nunique.
      pose proof (unique_length_le (map order_id (group_of by_ df k))) as Hle.
      rewrite length_map in Hle. lia.
    + apply group_keys_NoDup.
    + intros r Hr. apply group_keys_In. now exists r.
Qed.

(** X5. The weekday table has one row per weekday present in the view,
    holding the number of distinct order ids among that weekday's rows,
    which is at least 1 and at most the number of those rows.  Summed over
    the weekdays, the counts are at least the number of distinct orders of
    the view and at most its number of rows. *)
Theorem weekday_order_counts (filtered_df : DataFrame) :
  (forall w n, In (w, n) (weekday_order filtered_df) <->
     (exists r, In r filtered_df /\ weekday r = w) /\
     n = nunique_order_id (group_of weekday filtered_df w)) /\
  (forall w n, In (w, n) (weekday_order filtered_df) ->
     1 <= n <= Z.of_nat (List.length (group_of weekday filtered_df w))) /\
  nunique_order_id filtered_df
  <= sumZ (map snd (weekday_order filtered_df))
  <= Z.of_nat (List.length filtered_df).
Proof.
  unfold weekday_order. split; [| split].
  - intros w n. apply agg_groupby_In.
  - intros w n Hin. apply agg_groupby_In in Hin as [(r & Hr & Hw) ->].
    unfold nunique_order_id.
    assert (Hne : group_of weekday filtered_df w <> []).
    { intros Hnil.
      assert (Hin : In r (group_of weekday filtered_df w)).
      { unfold group_of. apply filter_In. split; [assumption | now apply key_eqb_eq]. }
      rewrite Hnil in Hin. exact Hin. }
    pose proof (nunique_bounds (map order_id (group_of weekday filtered_df w))) as Hb.
    rewrite length_map in Hb. apply Hb.
    intros E. apply map_eq_nil in E. contradiction.
  - apply nunique_by_group_bounds.
Qed.

Lemma weekday_order_counts_witness :
  1 <= 1 <= Z.of_nat (List.length (group_of weekday sample_df "Tuesday")).
Proof.
  destruct (weekday_order_counts sample_df) as (_ & Hb & _).
  apply (Hb "Tuesday" 1). vm_compute. right. left. reflexivity.
Defined.

(** ** Most loyal customers and the two headline customers *)

Lemma sumQ_perm (l l' : list Q) : Permutation l l' -> (sumQ l == sumQ l')%Q.
Proof.
  induction 1 as [| x l l' Hp IH | x y l | l l' l'' Hp1 IH1 Hp2 IH2]; simpl.
  - reflexivity.
  - now rewrite IH.
  - ring.
  - now rewrite IH1.
Qed.

Lemma sumZ_perm (l l' : list Z) : Permutation l l' -> sumZ l = sumZ l'.
Proof.
  induction 1 as [| x l l' Hp IH | x y l | l l' l'' Hp1 IH1 Hp2 IH2]; simpl; lia.
Qed.

Section Customers.
Context {S : SortValues}.

(* the first row of a non-empty table sorted descending has the largest value *)
Lemma iloc0_head_sorted {A : Type} (by_ : A -> Q) (n : nat) (l : list A) :
  l <> [] -> (0 < n)%nat ->
  exists x, iloc0 (head_n n (sort_values_desc by_ l)) = Ok x /\
            In x l /\ forall y, In y l -> (by_ y <= by_ x)%Q.
Proof.
  intros Hne Hn.
  pose proof (sort_values_perm A by_ l) as Hperm.
  pose proof (sort_values_sorted A by_ l) as Hsorted.
  destruct (sort_values_desc by_ l) as [| x rest] eqn:E.
  - apply Permutation_nil in Hperm. congruence.
  - destruct n as [| n']; [lia |]. exists x. split; [reflexivity |]. split.
    + apply (Permutation_in x Hperm). now left.
    + intros y Hy. apply (Permutation_in y (Permutation_sym Hperm)) in Hy.
      inversion Hsorted as [| x' rest' _ Hall]; subst.
      destruct Hy as [<- | Hy]; [apply Qle_refl |].
      rewrite Forall_forall in Hall. now apply Hall.
Qed.

Lemma head_n_all {A : Type} (n : nat) (l : list A) :
  (List.length l <= n)%nat -> head_n n l = l.
Proof. unfold head_n. apply firstn_all2. Qed.

Lemma customer_group_nonempty (filtered_df : DataFrame) (r : Row) :
  In r filtered_df -> group_of cust_id filtered_df (cust_id r) <> [].
Proof.
  intros Hr Hnil.
  assert (Hin : In r (group_of cust_id filtered_df (cust_id r))).
  { unfold group_of. apply filter_In. split; [assumption | apply key_eqb_refl]. }
  rewrite Hnil in Hin. exact Hin.
Qed.

(** X6. The Most Loyal table has one row per customer, each a customer of
    the Filtered View with the number of distinct order ids among that
    customer's rows (at least 1); it is sorted descending by total_orders
    and has at most 10 rows; a customer left out has no more orders than
    any of the 10 rows kept. *)
Theorem most_loyal_table (filtered_df : DataFrame) :
  let t := customer_loyalty filtered_df in
  (forall c n, In (c, n) t ->
     In c (map cust_id filtered_df) /\
     n = nunique_order_id (group_of cust_id filtered_df c) /\ 1 <= n) /\
  NoDup (map fst t) /\
  StronglySorted (fun x y => snd y <= snd x) t /\
  (List.length t <= 10)%nat /\
  (forall c, In c (map cust_id filtered_df) ->
     In c (map fst t) \/
     (List.length t = 10%nat /\
      forall e, In e t -> nunique_order_id (group_of cust_id filtered_df c) <= snd e)).
Proof.
  unfold customer_loyalty. cbv zeta.
  set (table := agg nunique_order_id (groupby cust_id filtered_df)).
  set (by_ := fun r : string * Z => inject_Z (snd r)).
  split; [| split; [| split; [| split]]].
  - intros c n Hin. apply head_n_incl, sort_values_In in Hin.
    apply agg_groupby_In in Hin as [(r & Hr & <-) ->].
    split; [now apply in_map |]. split; [reflexivity |].
    apply nunique_bounds. intros E. apply map_eq_nil in E.
    now apply (customer_group_nonempty filtered_df r).
  - apply head_n_NoDup_map.
    eapply Permutation_NoDup.
    + symmetry. apply Permutation_map, sort_values_perm.
    + unfold table. rewrite agg_groupby_fst. apply group_keys_NoDup.
  - apply head_n_StronglySorted.
    eapply StronglySorted_weaken; [| apply (sort_values_sorted _ by_ table)].
    intros x y Hle. unfold by_ in Hle. now rewrite Zle_Qle.
  - apply head_n_length.
  - intros c Hc. apply in_map_iff in Hc as (r & <- & Hr).
    set (row := (cust_id r, nunique_order_id (group_of cust_id filtered_df (cust_id r)))).
    assert (Hrow : In row (sort_values_desc by_ table)).
    { apply sort_values_In, agg_groupby_In. split; [now exists r | reflexivity]. }
    destruct (head_n_top _ 10 _ row (sort_values_sorted _ by_ table) Hrow)
      as [Hin | [Hlen Hall]].
    + left. now apply (in_map fst) in Hin.
    + right. split; [exact Hlen |].
      intros e He. rewrite Zle_Qle. exact (Hall e He).
Qed.


(** X8. When the Filtered View has at most 10 distinct customers, no
    customer is cut off: the Top Spenders table is a reordering of the
    whole per-customer table and lists exactly the customers of the
    view. *)
Theorem few_customers_all_listed (filtered_df : DataFrame) :
  nunique (map cust_id filtered_df) <= 10 ->
  Permutation (customer_revenue filtered_df)
              (agg sum_order_total (groupby cust_id filtered_df)) /\
  (forall c, In c (map cust_id filtered_df) <-> In c (map fst (customer_revenue filtered_df))).
Proof.
  intros Hfew.
  assert (Hperm : Permutation (customer_revenue filtered_df)
                    (agg sum_order_total (groupby cust_id filtered_df))).
  { unfold customer_revenue. rewrite head_n_all; [apply sort_values_perm |].
    rewrite (Permutation_length (sort_values_perm _ _ _)).
    rewrite <- (length_map fst), agg_groupby_fst. unfold group_keys.
    rewrite (Permutation_length (sorted_perm _ _)).
    unfold nunique in Hfew. lia. }
  split; [exact Hperm |].
  intros c.
  assert (Hiff : In c (map fst (customer_revenue filtered_df)) <->
                 In c (map fst (agg sum_order_total (groupby cust_id filtered_df)))).
  { split; apply Permutation_in;
      [apply Permutation_map, Hperm | symmetry; apply Permutation_map, Hperm]. }
  rewrite Hiff, agg_groupby_fst, group_keys_In, in_map_iff.
  split; intros (r & H1 & H2); exists r; tauto.
Qed.
End Customers.

Lemma most_loyal_table_witness :
  In "A" (map cust_id sample_df) /\
  1 = nunique_order_id (group_of cust_id sample_df "A") /\ 1 <= 1.
Proof.
  destruct (@most_loyal_table pandas_stable sample_df) as (Hrows & _).
  apply Hrows. vm_compute. left. reflexivity.
Defined.


Lemma few_customers_all_listed_witness :
  Permutation (customer_revenue (S := pandas_stable) sample_df)
              (agg sum_order_total (groupby cust_id sample_df)).
Proof.
  apply (@few_customers_all_listed pandas_stable sample_df). vm_compute. discriminate.
Defined.

(** ** Lookups without a default *)

Lemma month_names_lookup (s : string) :
  In s month_names -> exists m, dict_get MONTH_MAP m = Ok s.
Proof.
  unfold month_names. intros Hin.
  apply in_map_iff in Hin as ([m name] & <- & Hin). exists m.
  unfold MONTH_MAP in Hin. simpl in Hin.
  repeat (destruct Hin as [E | Hin]; [inversion E; subst; reflexivity |]).
  destruct Hin.
Qed.

Lemma filter_no_value (s : string) (d : list (Z * string)) :
  ~ In s (map snd d) -> filter (fun kv => String.eqb (snd kv) s) d = [].
Proof.
  induction d as [| [k v] d IH]; simpl; intros Hnot; [reflexivity |].
  destruct (String.eqb_spec v s) as [-> | _]; [exfalso; auto |].
  apply IH. tauto.
Qed.

Lemma dict_get_only_KeyError {V : Type} (d : list (Z * V)) (k : Z) (e : Exn) :
  dict_get d k = Raise e -> e = KeyError.
Proof.
  induction d as [| [k' v] d IH]; simpl.
  - intros E. now inversion E.
  - destruct (k' =? k); [discriminate | exact IH].
Qed.

Lemma dict_get_MONTH_MAP_out_of_range (m : Z) :
  ~ (1 <= m <= 12) -> dict_get MONTH_MAP m = Raise KeyError.
Proof.
  intros Hout. destruct (dict_get MONTH_MAP m) as [name | e] eqn:E.
  - apply dict_get_MONTH_MAP_range in E. contradiction.
  - now rewrite (dict_get_only_KeyError _ _ _ E).
Qed.

Lemma map_result_raises {A B : Type} (f : A -> Result B) (e : Exn) (l : list A) :
  (forall x e', f x = Raise e' -> e' = e) ->
  (exists x, In x l /\ f x = Raise e) ->
  map_result f l = Raise e.
Proof.
  intros Honly. induction l as [| a l IH]; simpl; intros (x & Hx & Hfx); [destruct Hx |].
  destruct (f a) as [b | e'] eqn:Ea; simpl.
  - destruct Hx as [-> | Hx]; [congruence |].
    rewrite IH; [reflexivity | now exists x].
  - now rewrite (Honly a e' Ea).
Qed.

(** X12. The month lookups have no default.  A selection that is neither
    "All Months" nor one of the twelve month names makes the reverse
    lookup [[k for k, v in MONTH_MAP.items() if v == selected][0]] raise
    IndexError, and a month value outside 1..12 in a year's rows makes
    [MONTH_MAP[m]] raise KeyError, which fails that year's panel for every
    selection. *)
Theorem month_lookups_have_no_default (y : Z) (filtered_df : DataFrame) (sel : string) :
  (sel <> "All Months" -> ~ In sel month_names ->
   plot_df (df_year y filtered_df) sel = Raise IndexError /\
   forall opts, month_options (df_year y filtered_df) = Ok opts ->
                daily_revenue_panel y filtered_df sel = Raise IndexError) /\
  ((exists r, In r filtered_df /\ year r = y /\ ~ (1 <= month r <= 12)) ->
   month_options (df_year y filtered_df) = Raise KeyError /\
   daily_revenue_panel y filtered_df sel = Raise KeyError).
Proof.
  split.
  - intros Hsent Hname.
    assert (Hplot : plot_df (df_year y filtered_df) sel = Raise IndexError).
    { unfold plot_df. destruct (String.eqb_spec sel "All Months"); [contradiction |].
      unfold month_num_of. rewrite filter_no_value by exact Hname. reflexivity. }
    split; [exact Hplot |].
    intros opts Hopts. unfold daily_revenue_panel. rewrite Hopts, Hplot. reflexivity.
  - intros (r & Hr & Hy & Hout).
    assert (Hopts : month_options (df_year y filtered_df) = Raise KeyError).
    { unfold month_options. rewrite (map_result_raises _ KeyError); [reflexivity | |].
      - intros m e. apply dict_get_only_KeyError.
      - exists (month r). split.
        + apply months_present_In. exists r. split; [| reflexivity].
          apply df_year_In. now split.
        + now apply dict_get_MONTH_MAP_out_of_range. }
    split; [exact Hopts |].
    unfold daily_revenue_panel. rewrite Hopts. reflexivity.
Qed.

Lemma month_lookups_have_no_default_witness :
  plot_df (df_year 2022 sample_df) "Smarch" = Raise IndexError.
Proof.
  destruct (month_lookups_have_no_default 2022 sample_df "Smarch") as [Hsel _].
  apply Hsel.
  - discriminate.
  - vm_compute. intuition discriminate.
Defined.

(** ** When the script completes *)

Lemma month_options_total (y : Z) (filtered_df : DataFrame) :
  Forall (fun r => 1 <= month r <= 12) filtered_df ->
  exists opts, month_options (df_year y filtered_df) = Ok opts.
Proof.
  intros Hwf. unfold month_options.
  destruct (map_result_total (dict_get MONTH_MAP)
              (months_present (df_year y filtered_df))) as [names ->].
  - intros m Hm. apply dict_get_MONTH_MAP_total.
    apply months_present_In in Hm as (r & Hr & <-).
    apply df_year_In in Hr as [Hr _].
    rewrite Forall_forall in Hwf. now apply Hwf.
  - now eexists.
Qed.

Lemma daily_revenue_panel_total (y : Z) (filtered_df : DataFrame) (sel : string) :
  Forall (fun r => 1 <= month r <= 12) filtered_df ->
  sel = "All Months" \/ In sel month_names ->
  exists panel, daily_revenue_panel y filtered_df sel = Ok panel.
Proof.
  intros Hwf Hsel.
  destruct (month_options_total y filtered_df Hwf) as [opts Hopts].
  assert (Hplot : exists plot, plot_df (df_year y filtered_df) sel = Ok plot).
  { destruct Hsel as [-> | Hname].
    - now eexists.
    - apply month_names_lookup in Hname as [m Hget].
      eexists. now apply plot_df_month with (m := m). }
  destruct Hplot as [plot Hplot].
  rewrite (daily_revenue_panel_unfold _ _ _ _ _ Hopts Hplot).
  destruct (empty (daily_rev plot)); now eexists.
Qed.

Lemma filter_df_Forall (P : Row -> Prop) (df : DataFrame) (sc sw : list string) :
  Forall P df -> Forall P (filter_df df sc sw).
Proof.
  rewrite !Forall_forall. intros Hall r Hr. apply filter_df_In in Hr. now apply Hall.
Qed.

Section Completion.
Context {S : SortValues}.

(** X13. With calendar months in the month column and each month
    selection being "All Months" or a month name, the script runs to the
    end exactly when the Filtered View is not empty: on an empty view it
    stops with IndexError, and otherwise it produces the page, whose
    tables are the aggregations of the Filtered View. *)
Theorem dashboard_completes_iff_view_nonempty (df : DataFrame)
    (selected_category selected_weekday : list string)
    (selected_month_2022 selected_month_2023 : string) :
  Forall (fun r => 1 <= month r <= 12) df ->
  selected_month_2022 = "All Months" \/ In selected_month_2022 month_names ->
  selected_month_2023 = "All Months" \/ In selected_month_2023 month_names ->
  let filtered_df := filter_df df selected_category selected_weekday in
  let run := dashboard df selected_category selected_weekday
                       selected_month_2022 selected_month_2023 in
  (filtered_df = [] -> run = Raise IndexError) /\
  (filtered_df <> [] ->
   exists page,
     run = Ok page /\
     page_kpi page = kpi_metrics filtered_df /\
     page_customer_revenue page = customer_revenue filtered_df /\
     iloc0 (customer_revenue filtered_df) = Ok (page_top_spender page) /\
     page_customer_loyalty page = customer_loyalty filtered_df /\
     iloc0 (customer_loyalty filtered_df) = Ok (page_most_loyal page) /\
     page_rev_cat page = rev_cat filtered_df /\
     page_vol_cat page = vol_cat filtered_df /\
     page_item_perf page = item_perf filtered_df /\
     page_weekday_order page = weekday_order filtered_df /\
     daily_revenue_panel 2022 filtered_df selected_month_2022
     = Ok (page_daily_2022 page) /\
     daily_revenue_panel 2023 filtered_df selected_month_2023
     = Ok (page_daily_2023 page)).
Proof.
  intros Hwf H22 H23 filtered_df run. subst run. unfold dashboard.
  fold filtered_df. split.
  - intros ->. rewrite customer_revenue_nil. reflexivity.
  - intros Hne.
    destruct (iloc0_head_sorted snd 10
                (agg sum_order_total (groupby cust_id filtered_df)))
      as (top & Htop & _); [now rewrite agg_groupby_empty_iff | lia |].
    destruct (iloc0_head_sorted (fun r : string * Z => inject_Z (snd r)) 10
                (agg nunique_order_id (groupby cust_id filtered_df)))
      as (loyal & Hloyal & _); [now rewrite agg_groupby_empty_iff | lia |].
    fold (customer_revenue filtered_df) in Htop.
    fold (customer_loyalty filtered_df) in Hloyal.
    assert (Hwf' : Forall (fun r => 1 <= month r <= 12) filtered_df)
      by now apply filter_df_Forall.
    destruct (daily_revenue_panel_total 2022 filtered_df _ Hwf' H22) as [p22 Hp22].
    destruct (daily_revenue_panel_total 2023 filtered_df _ Hwf' H23) as [p23 Hp23].
    rewrite Htop, Hloyal, Hp22, Hp23. simpl.
    eexists. split; [reflexivity |]. simpl. repeat split.
Qed.
End Completion.

Lemma dashboard_completes_iff_view_nonempty_witness :
  exists page,
    dashboard (S := pandas_stable) sample_df ["Drinks"] ["Monday"; "Tuesday"]
              "All Months" "February" = Ok page.
Proof.
  destruct (@dashboard_completes_iff_view_nonempty pandas_stable sample_df
              ["Drinks"] ["Monday"; "Tuesday"] "All Months" "February")
    as [_ Hrun].
  - repeat constructor; vm_compute; discriminate.
  - left. reflexivity.
  - right. vm_compute. tauto.
  - destruct Hrun as (page & Hpage & _); [discriminate |].
    exists page. exact Hpage.
Defined.

(** ** More on the filter *)

Lemma filter_all_pass {A : Type} (f : A -> bool) (l : list A) :
  (forall x, In x l -> f x = true) -> filter f l = l.
Proof.
  induction l as [| a l IH]; simpl; intros Hall; [reflexivity |].
  rewrite (Hall a (or_introl eq_refl)). f_equal. apply IH. auto.
Qed.

(** X14. With the default selections (every category and weekday of the
    dataset, each listed once, as the multiselect widgets start) the
    Filtered View is the whole dataset, rows in their order. *)
Theorem default_selection_keeps_dataset (df : DataFrame) :
  filter_df df (category_options df) (weekday_options df) = df /\
  NoDup (category_options df) /\ NoDup (weekday_options df) /\
  (forall c, In c (category_options df) <-> exists r, In r df /\ category r = c) /\
  (forall w, In w (weekday_options df) <-> exists r, In r df /\ weekday r = w).
Proof.
  split; [| split; [| split; [| split]]].
  - unfold filter_df. apply filter_all_pass. intros r Hr.
    apply andb_true_iff. rewrite !isin_In. split.
    + apply category_options_In. now exists r.
    + apply weekday_options_In. now exists r.
  - apply unique_NoDup.
  - apply unique_NoDup.
  - apply category_options_In.
  - apply weekday_options_In.
Qed.

Lemma default_selection_keeps_dataset_witness :
  In "Food" (category_options sample_df).
Proof.
  destruct (default_selection_keeps_dataset sample_df) as (_ & _ & _ & Hcat & _).
  apply Hcat. eexists. split; [right; left; reflexivity | reflexivity].
Defined.

(** X15. Filtering a Filtered View again is filtering the dataset once
    with the common values of the selections, so the two filters can be
    applied in either order; and widening the selections never loses a
    row: the narrower view is the wider one filtered. *)
Theorem filter_df_composes (df : DataFrame) (sc1 sw1 sc2 sw2 : list string) :
  filter_df (filter_df df sc1 sw1) sc2 sw2
  = filter_df df (present_in sc1 sc2) (present_in sw1 sw2) /\
  filter_df (filter_df df sc1 sw1) sc2 sw2
  = filter_df (filter_df df sc2 sw2) sc1 sw1 /\
  (incl sc2 sc1 -> incl sw2 sw1 ->
   filter_df (filter_df df sc1 sw1) sc2 sw2 = filter_df df sc2 sw2 /\
   (List.length (filter_df df sc2 sw2) <= List.length (filter_df df sc1 sw1))%nat).
Proof.
  assert (Hint : forall (x : string) (col sel : list string),
             isin x (present_in col sel) = isin x col && isin x sel).
  { intros x col sel. apply eq_true_iff_eq.
    rewrite andb_true_iff, !isin_In, present_in_In. tauto. }
  assert (Hcomp : forall a b c d,
             filter_df (filter_df df a b) c d
             = filter (fun r => (isin (category r) a && isin (weekday r) b)
                                && (isin (category r) c && isin (weekday r) d)) df).
  { intros. unfold filter_df. apply filter_filter_andb. }
  split; [| split].
  - rewrite Hcomp. unfold filter_df. apply filter_ext. intros r.
    rewrite !Hint.
    destruct (isin (category r) sc1), (isin (weekday r) sw1),
             (isin (category r) sc2), (isin (weekday r) sw2); reflexivity.
  - rewrite !Hcomp. apply filter_ext. intros r. apply andb_comm.
  - intros Hc Hw.
    assert (Heq : filter_df (filter_df df sc1 sw1) sc2 sw2 = filter_df df sc2 sw2).
    { rewrite Hcomp. unfold filter_df. apply filter_ext. intros r.
      destruct (isin (category r) sc2) eqn:E2; [| now rewrite !andb_false_r].
      destruct (isin (weekday r) sw2) eqn:F2; [| now rewrite !andb_false_r].
      apply isin_In, Hc, isin_In in E2. apply isin_In, Hw, isin_In in F2.
      now rewrite E2, F2. }
    split; [exact Heq |].
    rewrite <- Heq. unfold filter_df at 1. apply filter_length_bound.
Qed.

Lemma filter_df_composes_witness :
  filter_df (filter_df sample_df ["Drinks"; "Food"] ["Monday"; "Tuesday"])
            ["Drinks"] ["Monday"]
  = filter_df sample_df ["Drinks"] ["Monday"].
Proof.
  destruct (filter_df_composes sample_df ["Drinks"; "Food"] ["Monday"; "Tuesday"]
              ["Drinks"] ["Monday"]) as (_ & _ & Hwide).
  apply Hwide; intros x Hx; simpl in *; tauto.
Defined.
